(** * ibkr_tv_bot: the signal execution engine of [ibkr_tv_bot.py]

    A shallow embedding of the webhook dispatcher, the buy and sell decision
    paths and the Telegram configuration dialogue, with the properties of
    the engine's specification stated over it.

    Numbers are Python [float]s, that is IEEE 754 binary64 values: they are
    modelled by Rocq's primitive floats, and the places where Python departs
    from IEEE arithmetic (a division by zero raises, [int()] of a NaN or of
    an infinity raises) are written out in [Module Py]. The objects of the
    broker and messaging libraries are modelled with the attributes they
    have: reading one they lack raises [AttributeError]. *)

From Stdlib Require Import ZArith Floats Bool List Ascii String.
From stdpp Require Import gmap strings.
Import ListNotations.

Local Open Scope Z_scope.

(** ** Python values and builtins *)

Module Py.

(** The exceptions the modelled code can raise. *)
Inductive exn : Set :=
| ZeroDivisionError
| ValueError
| OverflowError
| KeyError
| AttributeError.

(** The outcome of evaluating an expression: a value or a raised exception. *)
Definition result (A : Type) : Type := exn + A.

(** A number as the order constructor receives it: [int(...)] on the buy
    path, the broker's float position size on the sell path. *)
Inductive number : Set :=
| PyInt (z : Z)
| PyFloat (f : float).

(** [x / y] on floats: Python raises when the divisor compares equal to
    zero (either sign) and otherwise performs the IEEE division. *)
Definition truediv (x y : float) : result float :=
  if (y =? 0)%float then inl ZeroDivisionError else inr (x / y)%float.

(** The integer part of a finite binary64 value [(-1)^s * m * 2^e],
    truncated toward zero. [Z.shiftl] with a negative amount shifts right. *)
Definition trunc_finite (s : bool) (m : positive) (e : Z) : Z :=
  cond_Zopp s (Z.shiftl (Z.pos m) e).

(** [int(x)]: truncation toward zero; a NaN raises [ValueError] and an
    infinity raises [OverflowError]. *)
Definition int_of_float (x : float) : result Z :=
  match Prim2SF x with
  | S754_nan => inl ValueError
  | S754_infinity _ => inl OverflowError
  | S754_zero _ => inr 0
  | S754_finite s m e => inr (trunc_finite s m e)
  end.

(** [math.floor(x)], the greatest integer below a finite [x]: the
    reference the quantity claim compares [int(...)] with. *)
Definition floor (x : float) : option Z :=
  match Prim2SF x with
  | S754_nan | S754_infinity _ => None
  | S754_zero _ => Some 0
  | S754_finite s m e => Some (Z.shiftl (cond_Zopp s (Z.pos m)) e)
  end.

(** [x] is neither a NaN nor an infinity. *)
Definition is_finite (x : float) : bool :=
  match Prim2SF x with
  | S754_nan | S754_infinity _ => false
  | _ => true
  end.

(** [str.upper()] on the ASCII range, which covers ticker symbols and the
    action words; bytes outside [a-z] are kept. *)
Definition upper_ascii (c : ascii) : ascii :=
  let n := nat_of_ascii c in
  if ((97 <=? n) && (n <=? 122))%nat then ascii_of_nat (n - 32) else c.

Fixpoint upper (s : string) : string :=
  match s with
  | EmptyString => EmptyString
  | String c s' => String (upper_ascii c) (upper s')
  end.

(** [str.lower()] on the ASCII range, as the command names need it. *)
Definition lower_ascii (c : ascii) : ascii :=
  let n := nat_of_ascii c in
  if ((65 <=? n) && (n <=? 90))%nat then ascii_of_nat (n + 32) else c.

Fixpoint lower (s : string) : string :=
  match s with
  | EmptyString => EmptyString
  | String c s' => String (lower_ascii c) (lower s')
  end.

(** The ASCII characters [str.strip()] removes: tab, line feed, vertical
    tab, form feed, carriage return, the separators 28 to 31 and space. *)
Definition is_space (c : ascii) : bool :=
  let n := nat_of_ascii c in
  (((9 <=? n) && (n <=? 13)) || ((28 <=? n) && (n <=? 32)))%nat.

Fixpoint lstrip (s : string) : string :=
  match s with
  | EmptyString => EmptyString
  | String c s' => if is_space c then lstrip s' else s
  end.

(** Drops trailing white space: a character is kept when it is not white
    space or when something is kept after it. *)
Fixpoint rstrip (s : string) : string :=
  match s with
  | EmptyString => EmptyString
  | String c s' =>
      match rstrip s' with
      | EmptyString => if is_space c then EmptyString else String c EmptyString
      | r => String c r
      end
  end.

Definition strip (s : string) : string := rstrip (lstrip s).

End Py.

Export Py.

(** ** Data model *)

(** One entry of [configs]: [{'order_size': ..., 'min_profit': ...}]. *)
Record Config : Set := mkConfig {
  order_size : float;
  min_profit : float
}.

(** [ib.accountValues()] reports each value as text. *)
Record AccountValue : Set := mkAccountValue {
  tag : string;
  currency : string;
  value : string
}.

(** The fields of the market-data ticker the buy path reads. *)
Record TickerData : Set := mkTickerData {
  last : float;
  bid : float;
  ask : float
}.

(** An element of [ib.positions()]: the broker library's named tuple
    [Position(account, contract, position, avgCost)]; [symbol] stands for
    [p.contract.symbol]. *)
Record Position : Set := mkPosition {
  account : string;
  symbol : string;
  position : float;
  avgCost : float
}.

(** Reading a number off a position by attribute name, [p.name]. The
    tuple has the numeric fields [position] and [avgCost] and no others:
    [marketPrice] and [averageCost] belong to the portfolio items of
    [ib.portfolio()], not to the positions of [ib.positions()], and reading
    them raises [AttributeError]. *)
Definition position_attr (p : Position) (name : string) : result float :=
  if String.eqb name "position" then inr (position p)
  else if String.eqb name "avgCost" then inr (avgCost p)
  else inl AttributeError.

Inductive Side : Set := BUY | SELL.

(** [LimitOrder(action, totalQuantity, lmtPrice)]. *)
Record LimitOrder : Set := mkLimitOrder {
  action : Side;
  totalQuantity : number;
  lmtPrice : float
}.

(** What the broker connection [ib] answers while one signal is handled.
    [qualifyContracts] and [sleep] change nothing the engine reads. *)
Record IB : Type := mkIB {
  accountValues : list AccountValue;
  reqMktData : string -> TickerData;
  positions : list Position
}.

(** The calls to [logger], one constructor per call site. *)
Inductive LogRecord : Set :=
| WebhookReceived (act ticker : string)
| UnknownAction (act ticker : string)
| NoConfiguration (ticker : string)
| AvailableFunds (available : float)
| InsufficientFunds (ticker : string) (need have : float)
| ZeroQuantity (ticker : string) (price : float)
| PlacedBuy (ticker : string) (qty : Z) (price : float)
| NoOpenPosition (ticker : string)
| UnrealizedPnl (ticker : string) (pnl_pct : float)
| BelowThreshold (pnl_pct threshold : float)
| PlacedSell (ticker : string) (qty price : float)
| SavedConfig (ticker : string) (cfg : Config).

(** [context.user_data] of the configuring user: the keys ['ticker'] and
    ['order_size'], each absent until a dialogue step stores it. *)
Record UserData : Set := mkUserData {
  ud_ticker : option string;
  ud_order_size : option float
}.

(** The messages sent with [reply_text], one constructor per call site. *)
Inductive Reply : Set :=
| Welcome
| AskTicker
| TickerSet (ticker : string)
| InvalidNumber
| OrderSizeSet (size : float)
| InvalidPercentage
| ConfigurationSaved (ticker : string) (size percent : float)
| ConfigurationCanceled.

(** The state the handlers share: the module-level dict [configs], the
    orders handed to [ib.placeOrder] (symbol of the contract and order, oldest
    first), the log, and for the dialogue the user's [user_data] and the
    replies sent. *)
Record World : Type := mkWorld {
  configs : gmap string Config;
  orders : list (string * LimitOrder);
  logged : list LogRecord;
  user_data : UserData;
  replies : list Reply
}.

(** ** Handlers as state transformers that may raise

    A raised exception keeps the effects performed before it. *)

Definition M (A : Type) : Type := World -> result A * World.

Definition ret {A} (a : A) : M A := fun w => (inr a, w).

Definition bind {A B} (c : M A) (k : A -> M B) : M B :=
  fun w =>
    match c w with
    | (inr a, w') => k a w'
    | (inl e, w') => (inl e, w')
    end.

Definition lift {A} (r : result A) : M A := fun w => (r, w).

Declare Scope py_scope.
Delimit Scope py_scope with py.
Notation "x <- c ;; k" := (bind c (fun x => k))
  (at level 100, c at next level, right associativity) : py_scope.
Notation "c ;; k" := (bind c (fun _ => k))
  (at level 100, right associativity) : py_scope.
Local Open Scope py_scope.

Definition logger (r : LogRecord) : M unit :=
  fun w => (inr tt, mkWorld (configs w) (orders w) (logged w ++ [r])
                       (user_data w) (replies w)).

Definition placeOrder (contract : string) (o : LimitOrder) : M unit :=
  fun w => (inr tt, mkWorld (configs w) (orders w ++ [(contract, o)]) (logged w)
                       (user_data w) (replies w)).

(** [configs.get(ticker)]. *)
Definition configs_get (ticker : string) : M (option Config) :=
  fun w => (inr (configs w !! ticker), w).

(** [configs[ticker] = cfg]. *)
Definition configs_set (ticker : string) (cfg : Config) : M unit :=
  fun w => (inr tt, mkWorld (<[ticker := cfg]> (configs w)) (orders w) (logged w)
                       (user_data w) (replies w)).

Definition reply_text (r : Reply) : M unit :=
  fun w => (inr tt, mkWorld (configs w) (orders w) (logged w)
                       (user_data w) (replies w ++ [r])).

(** [context.user_data['ticker'] = ticker]. *)
Definition set_user_ticker (ticker : string) : M unit :=
  fun w => (inr tt, mkWorld (configs w) (orders w) (logged w)
                       (mkUserData (Some ticker) (ud_order_size (user_data w)))
                       (replies w)).

(** [context.user_data['order_size'] = size]. *)
Definition set_user_order_size (size : float) : M unit :=
  fun w => (inr tt, mkWorld (configs w) (orders w) (logged w)
                       (mkUserData (ud_ticker (user_data w)) (Some size))
                       (replies w)).

(** [context.user_data[key]]: an absent key raises [KeyError]. *)
Definition user_data_get {A} (key : UserData -> option A) : M A :=
  fun w => (match key (user_data w) with
            | Some a => inr a
            | None => inl KeyError
            end, w).

(** The response of the webhook route, [jsonify({'status': 'processed'})]. *)
Definition processed : list (string * string) := [("status", "processed")]%string.

(** The JSON object of a request: each of the two keys absent, or present
    with a string value. *)
Record Payload : Set := mkPayload {
  p_ticker : option string;
  p_action : option string
}.

Section Engine.

(** Python's [float(text)]; [None] stands for [ValueError]. *)
Variable py_float : string -> option float.

(** The broker answers during the signal at hand. *)
Variable ib : IB.

Definition is_available_usd (v : AccountValue) : bool :=
  (String.eqb (tag v) "AvailableFunds" && String.eqb (currency v) "USD")%string.

(** [next((float(v.value) for v in account_values if ...), 0.0)]: the
    first matching entry is converted, later ones are never looked at. *)
Fixpoint available_funds (account_values : list AccountValue) : result float :=
  match account_values with
  | [] => inr 0%float
  | v :: rest =>
      if is_available_usd v then
        match py_float (value v) with
        | Some f => inr f
        | None => inl ValueError
        end
      else available_funds rest
  end.

(** [ticker_data.last if ticker_data.last > 0 else
    (ticker_data.ask + ticker_data.bid) / 2]. The divisor is the constant
    2, so this division cannot raise. *)
Definition buy_price (ticker_data : TickerData) : float :=
  if (0 <? last ticker_data)%float then last ticker_data
  else ((ask ticker_data + bid ticker_data) / 2)%float.

(** [int(cfg['order_size'] / price)]. *)
Definition buy_quantity (size price : float) : result Z :=
  match truediv size price with
  | inr q => int_of_float q
  | inl e => inl e
  end.

Definition handle_buy (ticker : string) : M unit :=
  cfg <- configs_get ticker ;;
  match cfg with
  | None => logger (NoConfiguration ticker)
  | Some cfg =>
      available <- lift (available_funds (accountValues ib)) ;;
      logger (AvailableFunds available) ;;
      if (available <? order_size cfg)%float then
        logger (InsufficientFunds ticker (order_size cfg) available)
      else
        let ticker_data := reqMktData ib ticker in
        let price := buy_price ticker_data in
        qty <- lift (buy_quantity (order_size cfg) price) ;;
        if qty <=? 0 then logger (ZeroQuantity ticker price)
        else
          placeOrder ticker (mkLimitOrder BUY (PyInt qty) price) ;;
          logger (PlacedBuy ticker qty price)
  end.

(** [p.contract.symbol.upper() == ticker and p.position > 0]. *)
Definition is_open_position (ticker : string) (p : Position) : bool :=
  String.eqb (upper (symbol p)) ticker && (0 <? position p)%float.

(** The unrealized profit percentage of lines 206 to 208, from the market
    price, the average cost and the quantity. *)
Definition pnl_pct (market_price avg_cost quantity : float) : result float :=
  let pnl_value := ((market_price - avg_cost) * quantity)%float in
  let invested := (avg_cost * quantity)%float in
  match truediv pnl_value invested with
  | inr r => inr (r * 100)%float
  | inl e => inl e
  end.

Definition handle_sell (ticker : string) : M unit :=
  cfg <- configs_get ticker ;;
  match cfg with
  | None => logger (NoConfiguration ticker)
  | Some cfg =>
      match List.find (is_open_position ticker) (positions ib) with
      | None => logger (NoOpenPosition ticker)
      | Some p =>
          market_price <- lift (position_attr p "marketPrice") ;;
          avg_cost <- lift (position_attr p "averageCost") ;;
          pnl <- lift (pnl_pct market_price avg_cost (position p)) ;;
          logger (UnrealizedPnl ticker pnl) ;;
          if (pnl <? min_profit cfg)%float then
            logger (BelowThreshold pnl (min_profit cfg))
          else
            placeOrder ticker
              (mkLimitOrder SELL (PyFloat (position p)) market_price) ;;
            logger (PlacedSell ticker (position p) market_price)
      end
  end.

(** The route [/webhook]: [data.get(key, '')] defaults an absent key to
    the empty string. *)
Definition webhook (data : Payload) : M (list (string * string)) :=
  let ticker := upper (default ""%string (p_ticker data)) in
  let act := upper (default ""%string (p_action data)) in
  logger (WebhookReceived act ticker) ;;
  (if String.eqb act "BUY" then handle_buy ticker
   else if String.eqb act "SELL" then handle_sell ticker
   else logger (UnknownAction act ticker)) ;;
  ret processed.

(** The branch of lines 132 to 137 on its own, to state what the route
    does with the outcome of the handler it picks. *)
Definition route (act ticker : string) : M unit :=
  if String.eqb act "BUY" then handle_buy ticker
  else if String.eqb act "SELL" then handle_sell ticker
  else logger (UnknownAction act ticker).

End Engine.


(** ** The configuration dialogue *)

(** The conversation states [TICKER, ORDER_SIZE, PROFIT_PCT = range(3)] and
    [ConversationHandler.END]; [END] also stands for "no conversation". *)
Inductive ConvState : Set := TICKER | ORDER_SIZE | PROFIT_PCT | END.

(** An incoming Telegram update. [Command] and [Text] are new messages,
    held in [update.message]: a command, named as the library extracts it
    (without the slash, any spelling of the letters), or text that is not a
    command ([filters.TEXT & ~filters.COMMAND]). [EditedCommand] and
    [EditedText] are the same kinds of message arriving as an edit (or a
    channel post): the handlers are called for them too, but [update.message]
    is then [None]. [OtherUpdate] is any update no handler is registered for
    (a photo, a button press). *)
Inductive Update : Set :=
| Command (name : string)
| Text (text : string)
| EditedCommand (name : string)
| EditedText (text : string)
| OtherUpdate.

(** [update.message], by its text, for the updates a handler may be called
    with. *)
Definition update_message (u : Update) : option string :=
  match u with
  | Command name => Some (String "/"%char name)
  | Text text => Some text
  | EditedCommand _ | EditedText _ | OtherUpdate => None
  end.

(** [update.message.text]: on [None] the attribute read raises. *)
Definition message_text (message : option string) : M string :=
  lift (match message with
        | Some text => inr text
        | None => inl AttributeError
        end).

(** [await update.message.reply_text(...)]. *)
Definition message_reply (message : option string) (r : Reply) : M unit :=
  match message with
  | Some _ => reply_text r
  | None => lift (inl AttributeError)
  end.

Section Dialogue.

Variable py_float : string -> option float.

Definition start (message : option string) : M unit :=
  message_reply message Welcome.

Definition set_ticker (message : option string) : M ConvState :=
  message_reply message AskTicker ;; ret TICKER.

Definition ticker_received (message : option string) : M ConvState :=
  text <- message_text message ;;
  let ticker := upper (strip text) in
  set_user_ticker ticker ;;
  message_reply message (TickerSet ticker) ;;
  ret ORDER_SIZE.

(** The [try] catches [ValueError] only: the [AttributeError] of a missing
    message leaves the handler. *)
Definition order_size_received (message : option string) : M ConvState :=
  text <- message_text message ;;
  match py_float (strip text) with
  | None => message_reply message InvalidNumber ;; ret ORDER_SIZE
  | Some size =>
      set_user_order_size size ;;
      message_reply message (OrderSizeSet size) ;;
      ret PROFIT_PCT
  end.

Definition profit_received (message : option string) : M ConvState :=
  text <- message_text message ;;
  match py_float (strip text) with
  | None => message_reply message InvalidPercentage ;; ret PROFIT_PCT
  | Some percent =>
      ticker <- user_data_get ud_ticker ;;
      size <- user_data_get ud_order_size ;;
      configs_set ticker (mkConfig size percent) ;;
      message_reply message (ConfigurationSaved ticker size percent) ;;
      logger (SavedConfig ticker (mkConfig size percent)) ;;
      ret END
  end.

Definition cancel (message : option string) : M ConvState :=
  message_reply message ConfigurationCanceled ;; ret END.

(** The handlers registered in [__main__]: [/start] first, then the
    conversation with entry point [/set], one text handler per state and the
    fallback [/cancel]. The library compares command names in lower case. An
    update no handler matches changes nothing. *)
Definition dispatch (st : ConvState) (u : Update) : M ConvState :=
  let message := update_message u in
  match u with
  | Command name | EditedCommand name =>
      if String.eqb (lower name) "start" then start message ;; ret st
      else
        match st with
        | END => if String.eqb (lower name) "set" then set_ticker message
                 else ret st
        | _ => if String.eqb (lower name) "cancel" then cancel message
               else ret st
        end
  | Text _ | EditedText _ =>
      match st with
      | TICKER => ticker_received message
      | ORDER_SIZE => order_size_received message
      | PROFIT_PCT => profit_received message
      | END => ret END
      end
  | OtherUpdate => ret st
  end.

(** The polling loop over a sequence of updates: a handler that raises
    leaves the conversation in the state it had. *)
Fixpoint run_polling (st : ConvState) (us : list Update) (w : World)
  : ConvState * World :=
  match us with
  | [] => (st, w)
  | u :: rest =>
      match dispatch st u w with
      | (inr st', w') => run_polling st' rest w'
      | (inl _, w') => run_polling st rest w'
      end
  end.

End Dialogue.

(** What [user_data] holds in each state of a conversation: the ticker once
    the first step is done, the order size as well once the second is. *)
Definition steps_stored (st : ConvState) (w : World) : Prop :=
  match st with
  | ORDER_SIZE => is_Some (ud_ticker (user_data w))
  | PROFIT_PCT =>
      is_Some (ud_ticker (user_data w)) /\ is_Some (ud_order_size (user_data w))
  | TICKER | END => True
  end.

(** Past the first step the ticker in [user_data] is upper-cased. *)
Definition ticker_upper (st : ConvState) (w : World) : Prop :=
  match st with
  | ORDER_SIZE | PROFIT_PCT =>
      exists t, ud_ticker (user_data w) = Some t /\ upper t = t
  | TICKER | END => True
  end.

(** The log records that report a submitted order. *)
Definition is_placed (r : LogRecord) : bool :=
  match r with
  | PlacedBuy _ _ _ | PlacedSell _ _ _ => true
  | _ => false
  end.

(** [w] with further orders and log records appended, the rest as it was. *)
Definition extend (w : World) (new_orders : list (string * LimitOrder))
           (new_log : list LogRecord) : World :=
  mkWorld (configs w) (orders w ++ new_orders) (logged w ++ new_log)
          (user_data w) (replies w).

(** The broker [ib] with other account values, or with other positions. *)
Definition with_account_values (ib : IB) (vs : list AccountValue) : IB :=
  mkIB vs (reqMktData ib) (positions ib).


(** The exact value of a finite float as a fraction, numerator over a
    positive denominator. *)
Definition exact_fraction (x : float) : option (Z * Z) :=
  match Prim2SF x with
  | S754_zero _ => Some (0, 1)
  | S754_finite s m e =>
      Some (if 0 <=? e then (cond_Zopp s (Z.pos m) * 2 ^ e, 1)
            else (cond_Zopp s (Z.pos m), 2 ^ (- e)))
  | S754_nan | S754_infinity _ => None
  end.

(** The floor of the exact quotient of two finite floats, the divisor not
    zero: the quotient before the division rounds it to a float. *)
Definition exact_floor_quotient (x y : float) : option Z :=
  match exact_fraction x, exact_fraction y with
  | Some (nx, dx), Some (ny, dy) =>
      if ny =? 0 then None else Some ((nx * dy) / (dx * ny))
  | _, _ => None
  end.

(** The float Python reads [0.1] as. *)
Definition tenth : float := 0x1.999999999999ap-4%float.

(** ** A concrete reading of decimal literals

    The theorems below hold for every [py_float]. To evaluate the model on
    examples, [float_of_literal] reads the plain literals the examples use: an
    optional sign, then digits with an optional fractional part, or one of the
    words [inf] and [nan]. With at most 15 digits the numerator and the power
    of ten are exact binary64 values, so their quotient is the correctly
    rounded value Python's [float] returns. Other texts (exponents,
    underscores, longer literals) are outside this fragment and read as
    [None]. *)

Definition digit_value (c : ascii) : option Z :=
  let n := nat_of_ascii c in
  if ((48 <=? n) && (n <=? 57))%nat then Some (Z.of_nat (n - 48)) else None.

(** Reads digits up to the end or a single point; returns the digits read
    as a number, and how many came after the point. *)
Fixpoint read_digits (s : string) (acc : Z) (seen_point : bool) (frac : nat)
  : option (Z * nat) :=
  match s with
  | EmptyString => Some (acc, frac)
  | String c rest =>
      match digit_value c with
      | Some d =>
          read_digits rest (10 * acc + d) seen_point
                      (if seen_point then S frac else frac)
      | None =>
          if Ascii.eqb c "."%char && negb seen_point
          then read_digits rest acc true frac
          else None
      end
  end.

Definition float_of_Z (z : Z) : float := of_uint63 (Uint63.of_Z z).

Definition unsigned_literal (s : string) : option float :=
  if String.eqb s "inf" then Some infinity
  else if String.eqb s "nan" then Some nan
  else if (String.eqb s "" || String.eqb s ".")%bool then None
  else if (15 <? String.length s)%nat then None
  else
    match read_digits s 0 false 0 with
    | Some (m, k) => Some (float_of_Z m / float_of_Z (10 ^ Z.of_nat k))%float
    | None => None
    end.

Definition float_of_literal (s : string) : option float :=
  match strip s with
  | String "-"%char rest => option_map PrimFloat.opp (unsigned_literal rest)
  | String "+"%char rest => unsigned_literal rest
  | s' => unsigned_literal s'
  end.

(** ** Example inputs *)

Definition no_user_data : UserData := mkUserData None None.

(** A fresh process whose store holds one configuration, for AAPL. *)
Definition aapl_world (size min_pct : float) : World :=
  mkWorld {["AAPL"%string := mkConfig size min_pct]} [] [] no_user_data [].

(** A broker that reports [funds] as available USD (besides a value in
    another currency), answers every market-data request with [quote] and
    holds the positions [ps]. *)
Definition broker (funds : string) (quote : TickerData) (ps : list Position)
  : IB :=
  mkIB [mkAccountValue "AvailableFunds" "EUR" "1";
        mkAccountValue "AvailableFunds" "USD" funds]%string
       (fun _ => quote) ps.

(** A broker whose account values have no available-USD entry. *)
Definition broker_without_funds (quote : TickerData) : IB :=
  mkIB [mkAccountValue "NetLiquidation" "USD" "5000";
        mkAccountValue "AvailableFunds" "EUR" "5000"]%string
       (fun _ => quote) [].

Definition buy_signal : Payload := mkPayload (Some "aapl") (Some "buy")%string.
Definition sell_signal : Payload := mkPayload (Some "aapl") (Some "sell")%string.
Definition hold_signal : Payload := mkPayload (Some "aapl") (Some "hold")%string.

(** ** Running the handlers *)

(** Unfolds one handler call down to the case analysis of its source. *)
Ltac py_unfold :=
  unfold webhook, handle_buy, handle_sell, bind, lift, ret, logger, placeOrder,
    configs_get, configs_set, reply_text, set_user_ticker, set_user_order_size,
    user_data_get, message_text, message_reply; simpl.

(** Splits on the next [if] or [match] scrutinee of the goal. *)
Ltac py_case :=
  match goal with
  | |- context [match ?x with _ => _ end] => destruct x eqn:?; simpl
  end.

Ltac py_run := py_unfold; repeat py_case.

(** Closes one branch of a handler: the run appended [no] to the orders
    and [nl] to the log. *)
Ltac frame_leaf no nl :=
  eexists; exists no, nl; unfold extend; simpl;
  rewrite ?app_nil_r, <- ?app_assoc; simpl;
  solve [repeat split; eauto].

(** ** Facts on binary64 comparison, addition and division *)

Section FloatFacts.

Lemma SFcompare_antisym (x y : spec_float) :
  SFcompare y x = option_map CompOpp (SFcompare x y).
Proof.
  destruct x as [sx|sx| |sx mx ex], y as [sy|sy| |sy my ey];
    try (destruct sx); try (destruct sy); simpl; try reflexivity;
    change (PosDef.Pos.compare_cont Eq my mx) with (Pos.compare my mx);
    change (PosDef.Pos.compare_cont Eq mx my) with (Pos.compare mx my);
    rewrite (Z.compare_antisym ey ex), (Pos.compare_antisym my mx);
    destruct (ey ?= ex); simpl; try reflexivity;
    destruct (my ?= mx)%positive; reflexivity.
Qed.

(** Two floats that compare equal are not strictly ordered. *)
Lemma eqb_true_ltb_false (x y : float) :
  (x =? y)%float = true -> (x <? y)%float = false.
Proof.
  rewrite FloatAxioms.eqb_spec, FloatAxioms.ltb_spec. unfold SFeqb, SFltb.
  destruct (SFcompare (Prim2SF x) (Prim2SF y)) as [[]|]; congruence.
Qed.

(** [y <= x] excludes [x < y]. *)
Lemma leb_true_ltb_false (x y : float) :
  (y <=? x)%float = true -> (x <? y)%float = false.
Proof.
  rewrite FloatAxioms.leb_spec, FloatAxioms.ltb_spec. unfold SFleb, SFltb.
  rewrite (SFcompare_antisym (Prim2SF y) (Prim2SF x)).
  destruct (SFcompare (Prim2SF y) (Prim2SF x)) as [[]|]; simpl; congruence.
Qed.

(** Float addition is commutative (NaNs are a single value here). *)
Lemma SFadd_comm (x y : spec_float) : SF64add x y = SF64add y x.
Proof.
  unfold SF64add, SFadd.
  destruct x as [sx|sx| |sx mx ex], y as [sy|sy| |sy my ey];
    try reflexivity;
    try (destruct sx, sy; reflexivity).
  cbv beta iota.
  rewrite (Z.min_comm ey ex).
  f_equal. apply Z.add_comm.
Qed.

Lemma float_add_comm (x y : float) : (x + y)%float = (y + x)%float.
Proof. apply Prim2SF_inj. rewrite !add_spec. apply SFadd_comm. Qed.

(** A float strictly above zero is a positive finite value or [+oo]. *)
Lemma positive_shape (x : float) :
  (0 <? x)%float = true ->
  (exists m e, Prim2SF x = S754_finite false m e) \/
  Prim2SF x = S754_infinity false.
Proof.
  rewrite FloatAxioms.ltb_spec. unfold SFltb.
  change (Prim2SF 0) with (S754_zero false).
  destruct (Prim2SF x) as [s|s| |s m e]; simpl; try discriminate;
    destruct s; simpl; try discriminate; eauto.
Qed.

(** Rounding a quotient computed with a positive sign never yields a
    negative finite value. *)
Lemma binary_round_aux_sign (m e : Z) (l : location) :
  match binary_round_aux prec emax false m e l with
  | S754_finite true _ _ => False
  | _ => True
  end.
Proof.
  unfold binary_round_aux.
  destruct (shr_fexp prec emax m e l) as [mrs e1].
  destruct (shr_fexp prec emax _ e1 loc_Exact) as [mrs' e2].
  destruct (shr_m mrs'); auto.
  destruct (e2 <=? emax - prec); auto.
Qed.

(** The quotient of two floats above zero is never a negative finite
    value. *)
Lemma div_positive_sign (x y : float) :
  (0 <? x)%float = true -> (0 <? y)%float = true ->
  match Prim2SF (x / y) with
  | S754_finite true _ _ => False
  | _ => True
  end.
Proof.
  intros Hx Hy. rewrite div_spec.
  destruct (positive_shape x Hx) as [(mx & ex & ->)| ->],
           (positive_shape y Hy) as [(my & ey & ->)| ->];
    unfold SF64div, SFdiv; auto.
  destruct (SFdiv_core_binary prec emax (Z.pos mx) ex (Z.pos my) ey)
    as [[mz ez] lz].
  apply binary_round_aux_sign.
Qed.

(** On a finite float that is not negative, [int()] and [math.floor]
    agree, and the integer is not negative. *)
Lemma int_of_float_floor (q : float) :
  match Prim2SF q with S754_finite true _ _ => False | _ => True end ->
  is_finite q = true ->
  exists z, floor q = Some z /\ int_of_float q = inr z /\ 0 <= z.
Proof.
  unfold is_finite, floor, int_of_float, trunc_finite.
  destruct (Prim2SF q) as [s|s| |s m e]; try discriminate; intros Hs _.
  - exists 0. repeat split; lia.
  - destruct s; [contradiction|]. simpl.
    exists (Z.shiftl (Z.pos m) e). repeat split.
    apply Z.shiftl_nonneg. lia.
Qed.

End FloatFacts.



(** ** When the arithmetic of the two paths raises *)

Lemma buy_quantity_zero_price (size price : float) :
  (price =? 0)%float = true -> buy_quantity size price = inl ZeroDivisionError.
Proof. unfold buy_quantity, truediv. now intros ->. Qed.

Lemma buy_quantity_not_finite (size price : float) :
  (price =? 0)%float = false -> is_finite (size / price) = false ->
  buy_quantity size price = inl ValueError \/
  buy_quantity size price = inl OverflowError.
Proof.
  unfold buy_quantity, truediv, is_finite, int_of_float. intros -> H.
  destruct (Prim2SF (size / price)); try discriminate; auto.
Qed.

Lemma buy_quantity_finite (size price : float) :
  (0 <? size)%float = true -> (0 <? price)%float = true ->
  is_finite (size / price) = true ->
  exists qty,
    floor (size / price) = Some qty /\ buy_quantity size price = inr qty /\
    0 <= qty.
Proof.
  intros Hs Hp Hfin.
  destruct (int_of_float_floor (size / price)
              (div_positive_sign size price Hs Hp) Hfin) as (z & Hf & Hi & Hz).
  exists z. repeat split; auto.
  unfold buy_quantity, truediv.
  assert (Hne : (price =? 0)%float = false).
  { destruct (price =? 0)%float eqn:E; auto.
    rewrite FloatAxioms.eqb_spec in E. rewrite FloatAxioms.ltb_spec in Hp.
    unfold SFeqb in E. unfold SFltb in Hp.
    rewrite (SFcompare_antisym (Prim2SF 0) (Prim2SF price)) in E.
    destruct (SFcompare (Prim2SF 0) (Prim2SF price)) as [[]|]; discriminate. }
  now rewrite Hne.
Qed.

Lemma pnl_pct_zero_invested (market_price avg_cost quantity : float) :
  (avg_cost * quantity =? 0)%float = true ->
  pnl_pct market_price avg_cost quantity = inl ZeroDivisionError.
Proof. unfold pnl_pct, truediv. now intros ->. Qed.

Lemma pnl_pct_invested (market_price avg_cost quantity : float) :
  (avg_cost * quantity =? 0)%float = false ->
  exists pnl, pnl_pct market_price avg_cost quantity = inr pnl.
Proof. unfold pnl_pct, truediv. intros ->. eauto. Qed.

(** The positions of [ib.positions()] carry no market price. *)
Lemma position_has_no_market_price (p : Position) :
  position_attr p "marketPrice" = inl AttributeError.
Proof. reflexivity. Qed.

(** Without an [AvailableFunds]/[USD] entry the generator is empty and
    [next] answers its default. *)
Lemma available_funds_default (py_float : string -> option float)
      (account_values : list AccountValue) :
  (forall v, In v account_values ->
             ~ (tag v = "AvailableFunds"%string /\ currency v = "USD"%string)) ->
  available_funds py_float account_values = inr 0%float.
Proof.
  induction account_values as [|v rest IH]; intros H; simpl; [reflexivity|].
  destruct (is_available_usd v) eqn:E.
  - exfalso. apply (H v); [now left|].
    unfold is_available_usd in E. apply andb_prop in E as [Et Ec].
    apply String.eqb_eq in Et, Ec. now split.
  - apply IH. intros v' Hin. apply H. now right.
Qed.

(** ** The outcomes of the buy path, the sell path and the dispatcher *)

Section SignalPath.

Variable py_float : string -> option float.
Variable ib : IB.

(** The signal path never writes the configuration store. *)
Lemma handle_buy_configs (ticker : string) (w : World) :
  configs (snd (handle_buy py_float ib ticker w)) = configs w.
Proof. py_run; reflexivity. Qed.

Lemma handle_sell_configs (ticker : string) (w : World) :
  configs (snd (handle_sell ib ticker w)) = configs w.
Proof. py_run; reflexivity. Qed.

Lemma handle_buy_unconfigured (ticker : string) (w : World) :
  configs w !! ticker = None ->
  fst (handle_buy py_float ib ticker w) = inr tt /\
  orders (snd (handle_buy py_float ib ticker w)) = orders w.
Proof. intros H. py_unfold. rewrite H. simpl. auto. Qed.

Lemma handle_buy_funds_error (ticker : string) (w : World) (cfg : Config)
      (e : exn) :
  configs w !! ticker = Some cfg ->
  available_funds py_float (accountValues ib) = inl e ->
  fst (handle_buy py_float ib ticker w) = inl e /\
  orders (snd (handle_buy py_float ib ticker w)) = orders w.
Proof. intros H1 H2. py_unfold. rewrite H1. simpl. rewrite H2. simpl. auto. Qed.

Lemma handle_buy_insufficient (ticker : string) (w : World) (cfg : Config)
      (available : float) :
  configs w !! ticker = Some cfg ->
  available_funds py_float (accountValues ib) = inr available ->
  (available <? order_size cfg)%float = true ->
  fst (handle_buy py_float ib ticker w) = inr tt /\
  orders (snd (handle_buy py_float ib ticker w)) = orders w.
Proof.
  intros H1 H2 H3. py_unfold. rewrite H1. simpl. rewrite H2. simpl.
  rewrite H3. simpl. auto.
Qed.

Lemma handle_buy_quantity_error (ticker : string) (w : World) (cfg : Config)
      (available : float) (e : exn) :
  configs w !! ticker = Some cfg ->
  available_funds py_float (accountValues ib) = inr available ->
  (available <? order_size cfg)%float = false ->
  buy_quantity (order_size cfg) (buy_price (reqMktData ib ticker)) = inl e ->
  fst (handle_buy py_float ib ticker w) = inl e /\
  orders (snd (handle_buy py_float ib ticker w)) = orders w.
Proof.
  intros H1 H2 H3 H4. py_unfold. rewrite H1. simpl. rewrite H2. simpl.
  rewrite H3. simpl. rewrite H4. simpl. auto.
Qed.

Lemma handle_buy_quantity (ticker : string) (w : World) (cfg : Config)
      (available : float) (qty : Z) :
  configs w !! ticker = Some cfg ->
  available_funds py_float (accountValues ib) = inr available ->
  (available <? order_size cfg)%float = false ->
  buy_quantity (order_size cfg) (buy_price (reqMktData ib ticker)) = inr qty ->
  fst (handle_buy py_float ib ticker w) = inr tt /\
  orders (snd (handle_buy py_float ib ticker w)) =
    if qty <=? 0 then orders w
    else orders w ++ [(ticker, mkLimitOrder BUY (PyInt qty)
                                 (buy_price (reqMktData ib ticker)))].
Proof.
  intros H1 H2 H3 H4. py_unfold. rewrite H1. simpl. rewrite H2. simpl.
  rewrite H3. simpl. rewrite H4. simpl. destruct (qty <=? 0); simpl; auto.
Qed.

(** The buy path submits no order, or exactly one: a BUY for the integer
    quantity it computed, strictly positive, at the selected price. *)
Lemma handle_buy_orders (ticker : string) (w : World) :
  orders (snd (handle_buy py_float ib ticker w)) = orders w \/
  exists qty,
    0 < qty /\
    orders (snd (handle_buy py_float ib ticker w)) =
      orders w ++ [(ticker, mkLimitOrder BUY (PyInt qty)
                              (buy_price (reqMktData ib ticker)))].
Proof.
  destruct (configs w !! ticker) as [cfg|] eqn:Hcfg;
    [|left; now apply handle_buy_unconfigured].
  destruct (available_funds py_float (accountValues ib)) as [e|a] eqn:Ha;
    [left; now apply (handle_buy_funds_error ticker w cfg e)|].
  destruct (a <? order_size cfg)%float eqn:Hlt;
    [left; now apply (handle_buy_insufficient ticker w cfg a)|].
  destruct (buy_quantity (order_size cfg) (buy_price (reqMktData ib ticker)))
    as [e|qty] eqn:Hq;
    [left; now apply (handle_buy_quantity_error ticker w cfg a e)|].
  destruct (handle_buy_quantity ticker w cfg a qty Hcfg Ha Hlt Hq) as [_ Ho].
  destruct (qty <=? 0) eqn:Hle; [now left|].
  right. exists qty. split; [lia|exact Ho].
Qed.

Lemma handle_sell_unconfigured (ticker : string) (w : World) :
  configs w !! ticker = None ->
  fst (handle_sell ib ticker w) = inr tt /\
  orders (snd (handle_sell ib ticker w)) = orders w.
Proof. intros H. py_unfold. rewrite H. simpl. auto. Qed.

Lemma handle_sell_no_position (ticker : string) (w : World) (cfg : Config) :
  configs w !! ticker = Some cfg ->
  List.find (is_open_position ticker) (positions ib) = None ->
  fst (handle_sell ib ticker w) = inr tt /\
  orders (snd (handle_sell ib ticker w)) = orders w.
Proof. intros H1 H2. py_unfold. rewrite H1. simpl. rewrite H2. simpl. auto. Qed.

(** With a position found the next statement, line 204, reads
    [position.marketPrice] and raises: the sell path stops there, before
    anything is logged or ordered. *)
Lemma handle_sell_open_position (ticker : string) (w : World) (cfg : Config)
      (p : Position) :
  configs w !! ticker = Some cfg ->
  List.find (is_open_position ticker) (positions ib) = Some p ->
  handle_sell ib ticker w = (inl AttributeError, w).
Proof.
  intros H1 H2. py_unfold. rewrite H1. simpl. rewrite H2. reflexivity.
Qed.

(** The position the sell path picks is for the signalled symbol and has a
    quantity above zero. *)
Lemma open_position_found (ticker : string) (p : Position) :
  List.find (is_open_position ticker) (positions ib) = Some p ->
  In p (positions ib) /\ upper (symbol p) = ticker /\
  (0 <? position p)%float = true.
Proof.
  intros H. apply List.find_some in H as [Hin Hp].
  unfold is_open_position in Hp. apply andb_prop in Hp as [Hs Hq].
  apply String.eqb_eq in Hs. auto.
Qed.

(** The route logs, runs the handler chosen by the action and answers
    [processed]; an exception of the handler is the route's. *)
Lemma webhook_route (data : Payload) (w : World) :
  let ticker := upper (default ""%string (p_ticker data)) in
  let act := upper (default ""%string (p_action data)) in
  let w1 := snd (logger (WebhookReceived act ticker) w) in
  fst (webhook py_float ib data w) =
    match fst (route py_float ib act ticker w1) with
    | inr _ => inr processed
    | inl e => inl e
    end /\
  snd (webhook py_float ib data w) = snd (route py_float ib act ticker w1).
Proof.
  intros ticker act w1. unfold webhook, route, w1. fold ticker act.
  set (h := if String.eqb act "BUY" then handle_buy py_float ib ticker
            else if String.eqb act "SELL" then handle_sell ib ticker
                 else logger (UnknownAction act ticker)).
  unfold bind, ret, logger. simpl.
  destruct (h _) as [[e|[]] w2]; simpl; auto.
Qed.

End SignalPath.

Lemma buy_quantity_defined (size price : float) :
  (price =? 0)%float = false -> is_finite (size / price) = true ->
  exists qty, buy_quantity size price = inr qty.
Proof.
  unfold buy_quantity, truediv, is_finite, int_of_float. intros -> H.
  destruct (Prim2SF (size / price)); try discriminate; eauto.
Qed.

(** ** The store, one operation after the other

    The source keeps [configs] in a plain dict, without a lock. Taken one
    after the other, a write is seen by the next read of the same symbol and
    leaves the entries of other symbols alone. *)

Lemma configs_set_visible (ticker : string) (cfg : Config) (w : World) :
  fst (configs_get ticker (snd (configs_set ticker cfg w))) = inr (Some cfg).
Proof. unfold configs_get, configs_set. simpl. now rewrite lookup_insert_eq. Qed.

Lemma configs_set_other (ticker other : string) (cfg : Config) (w : World) :
  ticker <> other ->
  fst (configs_get other (snd (configs_set ticker cfg w))) =
  fst (configs_get other w).
Proof.
  intros Hne. unfold configs_get, configs_set. simpl.
  now rewrite lookup_insert_ne.
Qed.

Lemma configs_set_commute (t1 t2 : string) (c1 c2 : Config) (w : World) :
  t1 <> t2 ->
  configs (snd (configs_set t1 c1 (snd (configs_set t2 c2 w)))) =
  configs (snd (configs_set t2 c2 (snd (configs_set t1 c1 w)))).
Proof.
  intros Hne. unfold configs_set. simpl. now apply insert_insert_ne.
Qed.

(** ** The claims on the signal path *)

(** C3. Buy-path price selection: past the funds gate, the buy path works
    with the price [last] when [last] is strictly positive and with the
    midpoint [(bid + ask) / 2] otherwise. The quantity is computed from that
    price, an exception of that computation leaves the path, and an order
    submitted carries that price as its limit. With last=0, bid=10, ask=12 an
    order size of 1000 buys 90 at 11; with last=15 it buys 66 at 15. *)
Theorem buy_price_selection :
  (forall (py_float : string -> option float) (ib : IB) (ticker : string)
          (w : World) (cfg : Config) (available : float),
      configs w !! ticker = Some cfg ->
      available_funds py_float (accountValues ib) = inr available ->
      (available <? order_size cfg)%float = false ->
      let q := reqMktData ib ticker in
      let price :=
        if (0 <? last q)%float then last q else ((bid q + ask q) / 2)%float in
      match truediv (order_size cfg) price with
      | inl e =>
          fst (handle_buy py_float ib ticker w) = inl e /\
          orders (snd (handle_buy py_float ib ticker w)) = orders w
      | inr quotient =>
          match int_of_float quotient with
          | inl e =>
              fst (handle_buy py_float ib ticker w) = inl e /\
              orders (snd (handle_buy py_float ib ticker w)) = orders w
          | inr qty =>
              fst (handle_buy py_float ib ticker w) = inr tt /\
              orders (snd (handle_buy py_float ib ticker w)) =
                if qty <=? 0 then orders w
                else orders w ++ [(ticker, mkLimitOrder BUY (PyInt qty) price)]
          end
      end) /\
  handle_buy float_of_literal (broker "5000" (mkTickerData 0 10 12) [])
    "AAPL" (aapl_world 1000 2.5)
  = (inr tt,
     mkWorld (configs (aapl_world 1000 2.5))
             [("AAPL"%string, mkLimitOrder BUY (PyInt 90) 11)]
             [AvailableFunds 5000; PlacedBuy "AAPL" 90 11] no_user_data []) /\
  handle_buy float_of_literal (broker "5000" (mkTickerData 15 10 12) [])
    "AAPL" (aapl_world 1000 2.5)
  = (inr tt,
     mkWorld (configs (aapl_world 1000 2.5))
             [("AAPL"%string, mkLimitOrder BUY (PyInt 66) 15)]
             [AvailableFunds 5000; PlacedBuy "AAPL" 66 15] no_user_data []).
Proof.
  split; [|split; vm_compute; reflexivity].
  intros py_float ib ticker w cfg available Hcfg Ha Hlt q price.
  assert (Hp : buy_price q = price).
  { unfold buy_price, price. now rewrite (float_add_comm (ask q) (bid q)). }
  pose proof (handle_buy_quantity_error py_float ib ticker w cfg available)
    as Herr.
  pose proof (handle_buy_quantity py_float ib ticker w cfg available) as Hqty.
  fold q in Herr, Hqty. rewrite Hp in Herr, Hqty.
  unfold buy_quantity in Herr, Hqty.
  destruct (truediv (order_size cfg) price) as [e|quotient];
    [exact (Herr e Hcfg Ha Hlt eq_refl)|].
  destruct (int_of_float quotient) as [e|qty];
    [exact (Herr e Hcfg Ha Hlt eq_refl)|].
  exact (Hqty qty Hcfg Ha Hlt eq_refl).
Qed.

Lemma buy_price_selection_witness :
  configs (aapl_world 1000 2.5) !! "AAPL"%string = Some (mkConfig 1000 2.5) /\
  available_funds float_of_literal
    (accountValues (broker "5000" (mkTickerData 0 10 12) []))
    = inr 5000%float /\
  (5000 <? order_size (mkConfig 1000 2.5))%float = false /\
  fst (handle_buy float_of_literal
         (broker "5000" (mkTickerData 0 10 12) []) "AAPL"
         (aapl_world 1000 2.5)) = inr tt /\
  orders (snd (handle_buy float_of_literal
                 (broker "5000" (mkTickerData 0 10 12) []) "AAPL"
                 (aapl_world 1000 2.5))) =
    orders (aapl_world 1000 2.5)
    ++ [("AAPL"%string, mkLimitOrder BUY (PyInt 90) ((10 + 12) / 2)%float)].
Proof.
  assert (H1 : configs (aapl_world 1000 2.5) !! "AAPL"%string
               = Some (mkConfig 1000 2.5)) by (vm_compute; reflexivity).
  assert (H2 : available_funds float_of_literal
                 (accountValues (broker "5000" (mkTickerData 0 10 12) []))
               = inr 5000%float) by (vm_compute; reflexivity).
  assert (H3 : (5000 <? order_size (mkConfig 1000 2.5))%float = false)
    by reflexivity.
  exact (conj H1 (conj H2 (conj H3
           (proj1 buy_price_selection float_of_literal
              (broker "5000" (mkTickerData 0 10 12) []) "AAPL"
              (aapl_world 1000 2.5) (mkConfig 1000 2.5) 5000%float
              H1 H2 H3)))).
Defined.

(** C6. A symbol without an entry in the configuration store: the buy path
    and the sell path both return normally and submit no order, and the
    dispatcher answers [processed] for any signal on that symbol. *)
Theorem unconfigured_symbol_is_noop
        (py_float : string -> option float) (ib : IB) (ticker : string)
        (w : World) :
  configs w !! ticker = None ->
  (fst (handle_buy py_float ib ticker w) = inr tt /\
   orders (snd (handle_buy py_float ib ticker w)) = orders w) /\
  (fst (handle_sell ib ticker w) = inr tt /\
   orders (snd (handle_sell ib ticker w)) = orders w) /\
  (forall data : Payload,
      upper (default ""%string (p_ticker data)) = ticker ->
      fst (webhook py_float ib data w) = inr processed /\
      orders (snd (webhook py_float ib data w)) = orders w).
Proof.
  intros Hcfg. split; [now apply handle_buy_unconfigured|].
  split; [now apply handle_sell_unconfigured|].
  intros data Ht.
  destruct (webhook_route py_float ib data w) as [Hr Hw].
  rewrite Hr, Hw, Ht. clear Hr Hw. unfold route.
  set (w1 := snd (logger _ w)).
  assert (Hcfg1 : configs w1 !! ticker = None) by exact Hcfg.
  destruct (String.eqb _ "BUY").
  - destruct (handle_buy_unconfigured py_float ib ticker w1 Hcfg1) as [-> ->].
    auto.
  - destruct (String.eqb _ "SELL").
    + destruct (handle_sell_unconfigured ib ticker w1 Hcfg1) as [-> ->]. auto.
    + simpl. auto.
Qed.

Lemma unconfigured_symbol_witness :
  configs (aapl_world 1000 2.5) !! "MSFT"%string = None /\
  (fst (handle_buy float_of_literal
          (broker "5000" (mkTickerData 100 99 101) []) "MSFT"
          (aapl_world 1000 2.5)) = inr tt /\
   orders (snd (handle_buy float_of_literal
                  (broker "5000" (mkTickerData 100 99 101) []) "MSFT"
                  (aapl_world 1000 2.5))) = []).
Proof.
  assert (H : configs (aapl_world 1000 2.5) !! "MSFT"%string = None)
    by (vm_compute; reflexivity).
  exact (conj H (proj1 (unconfigured_symbol_is_noop float_of_literal
                          (broker "5000" (mkTickerData 100 99 101) [])
                          "MSFT" (aapl_world 1000 2.5) H))).
Defined.

(** C5. The funds gate of the buy path: when the available USD funds the
    broker reports are strictly below the configured order size, the buy path
    returns normally and submits no order, whole or partial. *)
Theorem insufficient_funds_no_order
        (py_float : string -> option float) (ib : IB) (ticker : string)
        (w : World) (cfg : Config) (available : float) :
  configs w !! ticker = Some cfg ->
  available_funds py_float (accountValues ib) = inr available ->
  (available <? order_size cfg)%float = true ->
  fst (handle_buy py_float ib ticker w) = inr tt /\
  orders (snd (handle_buy py_float ib ticker w)) = orders w.
Proof. apply handle_buy_insufficient. Qed.

Lemma insufficient_funds_witness :
  configs (aapl_world 1000 2.5) !! "AAPL"%string = Some (mkConfig 1000 2.5) /\
  available_funds float_of_literal
    (accountValues (broker "999.5" (mkTickerData 100 99 101) []))
    = inr 999.5%float /\
  (999.5 <? 1000)%float = true /\
  fst (handle_buy float_of_literal
         (broker "999.5" (mkTickerData 100 99 101) []) "AAPL"
         (aapl_world 1000 2.5)) = inr tt /\
  orders (snd (handle_buy float_of_literal
                 (broker "999.5" (mkTickerData 100 99 101) []) "AAPL"
                 (aapl_world 1000 2.5))) = [].
Proof.
  assert (H1 : configs (aapl_world 1000 2.5) !! "AAPL"%string
               = Some (mkConfig 1000 2.5)) by (vm_compute; reflexivity).
  assert (H2 : available_funds float_of_literal
                 (accountValues (broker "999.5" (mkTickerData 100 99 101) []))
               = inr 999.5%float) by (vm_compute; reflexivity).
  assert (H3 : (999.5 <? 1000)%float = true) by reflexivity.
  exact (conj H1 (conj H2 (conj H3
           (insufficient_funds_no_order float_of_literal _ _ _ _ _ H1 H2 H3)))).
Defined.

(** C10. Without an account value tagged [AvailableFunds] in [USD] the buy
    path takes the available funds to be 0.0, so for a configured symbol with
    a positive order size it returns normally and submits no order. *)
Theorem missing_funds_entry_means_no_order
        (py_float : string -> option float) (ib : IB) (ticker : string)
        (w : World) (cfg : Config) :
  (forall v, In v (accountValues ib) ->
             ~ (tag v = "AvailableFunds"%string /\ currency v = "USD"%string)) ->
  configs w !! ticker = Some cfg ->
  (0 <? order_size cfg)%float = true ->
  available_funds py_float (accountValues ib) = inr 0%float /\
  fst (handle_buy py_float ib ticker w) = inr tt /\
  orders (snd (handle_buy py_float ib ticker w)) = orders w.
Proof.
  intros Hno Hcfg Hpos.
  pose proof (available_funds_default py_float _ Hno) as Ha.
  split; [exact Ha|].
  exact (handle_buy_insufficient py_float ib ticker w cfg 0%float Hcfg Ha Hpos).
Qed.

Lemma missing_funds_entry_witness :
  (forall v,
      In v (accountValues (broker_without_funds (mkTickerData 100 99 101))) ->
      ~ (tag v = "AvailableFunds"%string /\ currency v = "USD"%string)) /\
  configs (aapl_world 1000 2.5) !! "AAPL"%string = Some (mkConfig 1000 2.5) /\
  (0 <? 1000)%float = true /\
  available_funds float_of_literal
    (accountValues (broker_without_funds (mkTickerData 100 99 101)))
    = inr 0%float /\
  fst (handle_buy float_of_literal
         (broker_without_funds (mkTickerData 100 99 101)) "AAPL"
         (aapl_world 1000 2.5)) = inr tt /\
  orders (snd (handle_buy float_of_literal
                 (broker_without_funds (mkTickerData 100 99 101)) "AAPL"
                 (aapl_world 1000 2.5))) = [].
Proof.
  assert (H1 : forall v,
             In v (accountValues
                     (broker_without_funds (mkTickerData 100 99 101))) ->
             ~ (tag v = "AvailableFunds"%string /\ currency v = "USD"%string)).
  { intros v [<-|[<-|[]]] [Ht Hc]; simpl in *; discriminate. }
  assert (H2 : configs (aapl_world 1000 2.5) !! "AAPL"%string
               = Some (mkConfig 1000 2.5)) by (vm_compute; reflexivity).
  assert (H3 : (0 <? 1000)%float = true) by reflexivity.
  exact (conj H1 (conj H2 (conj H3
           (missing_funds_entry_means_no_order float_of_literal _ _ _ _
              H1 H2 H3)))).
Defined.

(** C4, as the code has it. Buy-path quantity: for a positive order size
    and a positive selected price whose binary64 quotient is finite, the
    quantity is the floor of that quotient as the division rounded it, which
    is what [int()] returns; the buy path returns normally, submits no order
    when that quantity is not above zero and otherwise submits one BUY order
    for exactly that quantity at the selected price. *)
Theorem buy_quantity_is_floor
        (py_float : string -> option float) (ib : IB) (ticker : string)
        (w : World) (cfg : Config) (available : float) :
  configs w !! ticker = Some cfg ->
  available_funds py_float (accountValues ib) = inr available ->
  (available <? order_size cfg)%float = false ->
  (0 <? order_size cfg)%float = true ->
  (0 <? buy_price (reqMktData ib ticker))%float = true ->
  is_finite (order_size cfg / buy_price (reqMktData ib ticker)) = true ->
  exists qty,
    floor (order_size cfg / buy_price (reqMktData ib ticker)) = Some qty /\
    buy_quantity (order_size cfg) (buy_price (reqMktData ib ticker)) = inr qty /\
    fst (handle_buy py_float ib ticker w) = inr tt /\
    orders (snd (handle_buy py_float ib ticker w)) =
      if qty <=? 0 then orders w
      else orders w ++ [(ticker, mkLimitOrder BUY (PyInt qty)
                                   (buy_price (reqMktData ib ticker)))].
Proof.
  intros Hcfg Ha Hlt Hsize Hprice Hfin.
  destruct (buy_quantity_finite _ _ Hsize Hprice Hfin) as (qty & Hf & Hq & _).
  exists qty. split; [exact Hf|]. split; [exact Hq|].
  exact (handle_buy_quantity py_float ib ticker w cfg available qty
           Hcfg Ha Hlt Hq).
Qed.

(** The two quantities the specification names; on them the rounded and
    the exact quotient have the same floor. *)
Example buy_quantity_1000_333 :
  buy_quantity 1000 333 = inr 3 /\ floor (1000 / 333) = Some 3 /\
  exact_floor_quotient 1000 333 = Some 3 /\
  orders (snd (handle_buy float_of_literal
                 (broker "5000" (mkTickerData 333 332 334) []) "AAPL"
                 (aapl_world 1000 2.5)))
  = [("AAPL"%string, mkLimitOrder BUY (PyInt 3) 333)].
Proof. repeat split; vm_compute; reflexivity. Qed.

Example buy_quantity_100_150 :
  buy_quantity 100 150 = inr 0 /\ floor (100 / 150) = Some 0 /\
  exact_floor_quotient 100 150 = Some 0 /\
  handle_buy float_of_literal
    (broker "5000" (mkTickerData 150 149 151) []) "AAPL" (aapl_world 100 2.5)
  = (inr tt,
     mkWorld (configs (aapl_world 100 2.5)) []
             [AvailableFunds 5000; ZeroQuantity "AAPL" 150] no_user_data []).
Proof. repeat split; vm_compute; reflexivity. Qed.

Lemma buy_quantity_is_floor_witness :
  configs (aapl_world 1000 2.5) !! "AAPL"%string = Some (mkConfig 1000 2.5) /\
  available_funds float_of_literal
    (accountValues (broker "5000" (mkTickerData 333 332 334) []))
    = inr 5000%float /\
  (5000 <? 1000)%float = false /\
  (0 <? 1000)%float = true /\
  (0 <? 333)%float = true /\
  is_finite (1000 / 333) = true /\
  exists qty,
    floor (1000 / 333) = Some qty /\
    buy_quantity 1000 333 = inr qty /\
    fst (handle_buy float_of_literal
           (broker "5000" (mkTickerData 333 332 334) []) "AAPL"
           (aapl_world 1000 2.5)) = inr tt /\
    orders (snd (handle_buy float_of_literal
                   (broker "5000" (mkTickerData 333 332 334) []) "AAPL"
                   (aapl_world 1000 2.5))) =
      if qty <=? 0 then []
      else [] ++ [("AAPL"%string, mkLimitOrder BUY (PyInt qty) 333)].
Proof.
  assert (H1 : configs (aapl_world 1000 2.5) !! "AAPL"%string
               = Some (mkConfig 1000 2.5)) by (vm_compute; reflexivity).
  assert (H2 : available_funds float_of_literal
                 (accountValues (broker "5000" (mkTickerData 333 332 334) []))
               = inr 5000%float) by (vm_compute; reflexivity).
  assert (H3 : (5000 <? 1000)%float = false) by reflexivity.
  assert (H4 : (0 <? 1000)%float = true) by reflexivity.
  assert (H5 : (0 <? 333)%float = true) by reflexivity.
  assert (H6 : is_finite (1000 / 333) = true) by (vm_compute; reflexivity).
  exact (conj H1 (conj H2 (conj H3 (conj H4 (conj H5 (conj H6
           (buy_quantity_is_floor float_of_literal
              (broker "5000" (mkTickerData 333 332 334) []) "AAPL"
              (aapl_world 1000 2.5) (mkConfig 1000 2.5) 5000
              H1 H2 H3 H4 H5 H6))))))).
Defined.

(** C4 as stated fails in two ways. The division rounds: 1000 divided by
    the float 0.1, whose exact value is a little above one tenth, is a little
    below 10000 and floors to 9999, but the rounded quotient is 10000.0 and
    10000 are ordered, for more than the order size. And the quotient can
    leave the float range: an order size of 2^1023 at a price of 0.5 gives
    [+oo], [int()] raises [OverflowError] and no quantity is produced. *)
Lemma buy_quantity_counterexample :
  ((0 <? 1000)%float = true /\
   (0 <? buy_price (mkTickerData tenth 0 0))%float = true /\
   float_of_literal "0.1" = Some tenth /\
   exact_fraction tenth = Some (7205759403792794, 72057594037927936) /\
   72057594037927936 < 10 * 7205759403792794 /\
   exact_floor_quotient 1000 (buy_price (mkTickerData tenth 0 0))
     = Some 9999 /\
   buy_quantity 1000 (buy_price (mkTickerData tenth 0 0)) = inr 10000 /\
   orders (snd (handle_buy float_of_literal
                  (broker "5000" (mkTickerData tenth 0 0) []) "AAPL"
                  (aapl_world 1000 2.5)))
   = [("AAPL"%string, mkLimitOrder BUY (PyInt 10000) tenth)]) /\
  ((0 <? 0x1p1023)%float = true /\
   (0 <? buy_price (mkTickerData 0.5 0.25 0.75))%float = true /\
   (0x1p1023 / buy_price (mkTickerData 0.5 0.25 0.75))%float = infinity /\
   buy_quantity 0x1p1023 (buy_price (mkTickerData 0.5 0.25 0.75))
     = inl OverflowError /\
   fst (handle_buy float_of_literal
          (broker "inf" (mkTickerData 0.5 0.25 0.75) []) "AAPL"
          (aapl_world 0x1p1023 2.5)) = inl OverflowError).
Proof. repeat split; try lia; vm_compute; reflexivity. Qed.

(** C7. The sell path does not get to the order. With a configured
    symbol and an open position found, the next statement reads
    [position.marketPrice] off an element of [ib.positions()], which has no
    such attribute: [AttributeError] leaves the sell path at line 204, with
    nothing logged and no SELL order for the position, whatever its profit. *)
Theorem sell_open_position_raises
        (ib : IB) (ticker : string) (w : World) (cfg : Config) (p : Position) :
  configs w !! ticker = Some cfg ->
  List.find (is_open_position ticker) (positions ib) = Some p ->
  handle_sell ib ticker w = (inl AttributeError, w).
Proof. apply handle_sell_open_position. Qed.

(** The example of the specification: quantity 10 at an average cost of
    100, with a threshold of 2.5 percent; no market price can be given, the
    position tuple has no place for one. *)
Lemma sell_open_position_witness :
  configs (aapl_world 1000 2.5) !! "AAPL"%string = Some (mkConfig 1000 2.5) /\
  List.find (is_open_position "AAPL")
    (positions (broker "0" (mkTickerData 103 102 104)
                  [mkPosition "DU1" "MSFT" 7 40; mkPosition "DU1" "aapl" 10 100]))
    = Some (mkPosition "DU1" "aapl" 10 100) /\
  handle_sell
    (broker "0" (mkTickerData 103 102 104)
       [mkPosition "DU1" "MSFT" 7 40; mkPosition "DU1" "aapl" 10 100])
    "AAPL" (aapl_world 1000 2.5)
  = (inl AttributeError, aapl_world 1000 2.5).
Proof.
  assert (H1 : configs (aapl_world 1000 2.5) !! "AAPL"%string
               = Some (mkConfig 1000 2.5)) by (vm_compute; reflexivity).
  assert (H2 : List.find (is_open_position "AAPL")
                 (positions (broker "0" (mkTickerData 103 102 104)
                    [mkPosition "DU1" "MSFT" 7 40;
                     mkPosition "DU1" "aapl" 10 100]))
               = Some (mkPosition "DU1" "aapl" 10 100))
    by (vm_compute; reflexivity).
  exact (conj H1 (conj H2
           (sell_open_position_raises _ "AAPL" (aapl_world 1000 2.5)
              (mkConfig 1000 2.5) (mkPosition "DU1" "aapl" 10 100) H1 H2))).
Defined.



(** The percentage and the guard of lines 206 to 211 on their own, at the
    values of the specification's example with the threshold at 3: the
    percentage is 3.0, equal to the threshold, and the guard
    [pnl_pct < min_profit] that closes the no-sale branch does not hold. *)
Example threshold_guard_at_equality :
  pnl_pct 103 100 10 = inr 3%float /\
  (3 =? min_profit (mkConfig 1000 3))%float = true /\
  (3 <? min_profit (mkConfig 1000 3))%float = false.
Proof. repeat split; vm_compute; reflexivity. Qed.

(** C2, as the code has it. The route has no exception handler and never
    writes the configuration store. It answers [processed] and submits
    nothing for an action other than BUY and SELL, for an unconfigured symbol,
    for insufficient funds and for a missing position, and it answers
    [processed] whenever the arithmetic of the buy path is defined. A selected
    buy price equal to zero raises [ZeroDivisionError]; a buy quotient that is
    a NaN or an infinity raises [ValueError] or [OverflowError]; funds text
    that is no number raises [ValueError]; an open position found on the sell
    path raises [AttributeError]. These exceptions leave the route, with no
    order submitted. *)
Theorem webhook_outcome
        (py_float : string -> option float) (ib : IB) (data : Payload)
        (w : World) :
  let ticker := upper (default ""%string (p_ticker data)) in
  let act := upper (default ""%string (p_action data)) in
  let r := fst (webhook py_float ib data w) in
  let w' := snd (webhook py_float ib data w) in
  let price := buy_price (reqMktData ib ticker) in
  configs w' = configs w /\
  (act <> "BUY"%string -> act <> "SELL"%string ->
   r = inr processed /\ orders w' = orders w) /\
  (configs w !! ticker = None -> r = inr processed /\ orders w' = orders w) /\
  (forall cfg e,
      act = "BUY"%string -> configs w !! ticker = Some cfg ->
      available_funds py_float (accountValues ib) = inl e ->
      r = inl e /\ orders w' = orders w) /\
  (forall cfg available,
      act = "BUY"%string -> configs w !! ticker = Some cfg ->
      available_funds py_float (accountValues ib) = inr available ->
      ((available <? order_size cfg)%float = true ->
       r = inr processed /\ orders w' = orders w) /\
      ((available <? order_size cfg)%float = false ->
       ((price =? 0)%float = true ->
        r = inl ZeroDivisionError /\ orders w' = orders w) /\
       ((price =? 0)%float = false ->
        is_finite (order_size cfg / price) = false ->
        (r = inl ValueError \/ r = inl OverflowError) /\
        orders w' = orders w) /\
       ((price =? 0)%float = false ->
        is_finite (order_size cfg / price) = true ->
        r = inr processed))) /\
  (forall cfg,
      act = "SELL"%string -> configs w !! ticker = Some cfg ->
      (List.find (is_open_position ticker) (positions ib) = None ->
       r = inr processed /\ orders w' = orders w) /\
      (forall p,
          List.find (is_open_position ticker) (positions ib) = Some p ->
          r = inl AttributeError /\ orders w' = orders w)).
Proof.
  intros ticker act r w' price. subst r w'.
  destruct (webhook_route py_float ib data w) as [Hr Hw].
  fold ticker act in Hr, Hw. rewrite Hr, Hw. clear Hr Hw.
  set (w1 := snd (logger (WebhookReceived act ticker) w)).
  assert (Hc : configs w1 = configs w) by reflexivity.
  assert (Ho : orders w1 = orders w) by reflexivity.
  rewrite <- Hc, <- Ho. clearbody w1. unfold route.
  split; [|split; [|split; [|split; [|split]]]].
  - destruct (String.eqb act "BUY"); [apply handle_buy_configs|].
    destruct (String.eqb act "SELL"); [apply handle_sell_configs|].
    reflexivity.
  - intros Hb Hs. apply String.eqb_neq in Hb, Hs. now rewrite Hb, Hs.
  - intros Hcfg.
    destruct (String.eqb act "BUY").
    { now destruct (handle_buy_unconfigured py_float ib ticker w1 Hcfg)
        as [-> ->]. }
    destruct (String.eqb act "SELL").
    { now destruct (handle_sell_unconfigured ib ticker w1 Hcfg) as [-> ->]. }
    now simpl.
  - intros cfg e -> Hcfg Ha. simpl.
    now destruct (handle_buy_funds_error py_float ib ticker w1 cfg e Hcfg Ha)
      as [-> ->].
  - intros cfg available -> Hcfg Ha. simpl.
    split; [|intros Hlt; split; [|split]].
    + intros Hlt.
      now destruct (handle_buy_insufficient
                      py_float ib ticker w1 cfg available Hcfg Ha Hlt)
        as [-> ->].
    + intros Hz.
      now destruct (handle_buy_quantity_error
                      py_float ib ticker w1 cfg available _ Hcfg Ha Hlt
                      (buy_quantity_zero_price (order_size cfg) price Hz))
        as [-> ->].
    + intros Hz Hfin.
      destruct (buy_quantity_not_finite (order_size cfg) price Hz Hfin)
        as [E|E];
        destruct (handle_buy_quantity_error
                    py_float ib ticker w1 cfg available _ Hcfg Ha Hlt E)
        as [-> ->]; auto.
    + intros Hz Hfin.
      destruct (buy_quantity_defined (order_size cfg) price Hz Hfin)
        as [qty E].
      now destruct (handle_buy_quantity
                      py_float ib ticker w1 cfg available qty Hcfg Ha Hlt E)
        as [-> _].
  - intros cfg -> Hcfg. simpl. split.
    + intros Hnone.
      now destruct (handle_sell_no_position ib ticker w1 cfg Hcfg Hnone)
        as [-> ->].
    + intros p Hfind.
      now rewrite (handle_sell_open_position ib ticker w1 cfg p Hcfg Hfind).
Qed.

Lemma webhook_outcome_witness :
  upper "hold" <> "BUY"%string /\
  upper "hold" <> "SELL"%string /\
  fst (webhook float_of_literal (broker "5000" (mkTickerData 0 0 0) [])
         hold_signal (aapl_world 1000 2.5)) = inr processed /\
  orders (snd (webhook float_of_literal
                 (broker "5000" (mkTickerData 0 0 0) [])
                 hold_signal (aapl_world 1000 2.5))) =
    orders (aapl_world 1000 2.5).
Proof.
  assert (H1 : upper "hold" <> "BUY"%string)
    by (intros E; vm_compute in E; discriminate E).
  assert (H2 : upper "hold" <> "SELL"%string)
    by (intros E; vm_compute in E; discriminate E).
  exact (conj H1 (conj H2
           (proj1 (proj2 (webhook_outcome float_of_literal
                            (broker "5000" (mkTickerData 0 0 0) [])
                            hold_signal (aapl_world 1000 2.5))) H1 H2))).
Defined.

(** C2 as stated fails on the very values it names. A quote with last = 0
    and bid + ask = 0 selects the price 0, and the division of line 173
    raises. A position with average cost 0 is an open position like any
    other, and the attribute read of line 204 raises. Both exceptions leave
    the route instead of the acknowledgment. *)
Lemma webhook_raises_counterexample :
  ((last (mkTickerData 0 0 0) <=? 0)%float = true /\
   (bid (mkTickerData 0 0 0) + ask (mkTickerData 0 0 0) =? 0)%float = true /\
   fst (webhook float_of_literal (broker "5000" (mkTickerData 0 0 0) [])
          buy_signal (aapl_world 1000 2.5)) = inl ZeroDivisionError) /\
  ((avgCost (mkPosition "DU1" "AAPL" 10 0) =? 0)%float = true /\
   (0 <? position (mkPosition "DU1" "AAPL" 10 0))%float = true /\
   fst (webhook float_of_literal
          (broker "5000" (mkTickerData 103 102 104)
             [mkPosition "DU1" "AAPL" 10 0])
          sell_signal (aapl_world 1000 2.5)) = inl AttributeError).
Proof. repeat split; vm_compute; reflexivity. Qed.

(** A ticker on which no market data has arrived yet holds NaN in all three
    fields: the midpoint is NaN, so is the quotient, and [int()] raises. *)
Example webhook_without_market_data :
  webhook float_of_literal (broker "5000" (mkTickerData nan nan nan) [])
    buy_signal (aapl_world 1000 2.5)
  = (inl ValueError,
     mkWorld (configs (aapl_world 1000 2.5)) []
             [WebhookReceived "BUY" "AAPL"; AvailableFunds 5000]
             no_user_data []).
Proof. vm_compute; reflexivity. Qed.

(** ** The steps of the configuration dialogue *)

Section DialogueFacts.

Variable py_float : string -> option float.

(** An update whose message is not in [update.message] writes nothing:
    no handler matches it, or the handler called raises before any effect. *)
Lemma dispatch_without_message (st : ConvState) (u : Update) (w : World) :
  update_message u = None ->
  dispatch py_float st u w = (inr st, w) \/
  dispatch py_float st u w = (inl AttributeError, w).
Proof.
  destruct u as [name|text|name|text|]; try discriminate; intros _;
    unfold dispatch, update_message.
  - destruct (String.eqb (lower name) "start"); [now right|].
    destruct st; destruct (String.eqb (lower name) _); auto.
  - destruct st; auto.
  - now left.
Qed.

(** One update writes the store only as the third step completing: the
    conversation awaits the percentage, the text parses, and the entry written
    is made of the ticker and the size the two earlier steps stored. *)
Lemma dispatch_store (st : ConvState) (u : Update) (w : World) :
  configs (snd (dispatch py_float st u w)) = configs w \/
  exists text percent ticker size,
    st = PROFIT_PCT /\ u = Text text /\
    py_float (strip text) = Some percent /\
    ud_ticker (user_data w) = Some ticker /\
    ud_order_size (user_data w) = Some size /\
    fst (dispatch py_float st u w) = inr END /\
    configs (snd (dispatch py_float st u w)) =
      <[ticker := mkConfig size percent]> (configs w).
Proof.
  destruct u as [name|text|name|text|].
  - left. unfold dispatch, update_message.
    destruct (String.eqb (lower name) "start"); [reflexivity|].
    destruct st; destruct (String.eqb (lower name) _); reflexivity.
  - unfold dispatch, update_message.
    destruct st; try (left; reflexivity).
    + left. unfold order_size_received. py_unfold.
      destruct (py_float (strip text)); reflexivity.
    + unfold profit_received. py_unfold.
      destruct (py_float (strip text)) as [percent|] eqn:Hp;
        [|left; reflexivity].
      simpl.
      destruct (ud_ticker (user_data w)) as [ticker|] eqn:Ht;
        [|left; reflexivity].
      simpl.
      destruct (ud_order_size (user_data w)) as [size|] eqn:Hs;
        [|left; reflexivity].
      right. exists text, percent, ticker, size. simpl. auto 10.
  - left.
    destruct (dispatch_without_message st (EditedCommand name) w eq_refl)
      as [-> | ->]; reflexivity.
  - left.
    destruct (dispatch_without_message st (EditedText text) w eq_refl)
      as [-> | ->]; reflexivity.
  - now left.
Qed.


End DialogueFacts.

Section Sessions.

Variable py_float : string -> option float.

(** In a state whose earlier steps are stored, a new message is handled
    without an exception, and the next state has its earlier steps stored
    too. *)
Lemma dispatch_steps_stored (st : ConvState) (u : Update) (w : World) :
  steps_stored st w ->
  update_message u <> None ->
  exists st',
    fst (dispatch py_float st u w) = inr st' /\
    steps_stored st' (snd (dispatch py_float st u w)).
Proof.
  intros Hinv Hmsg. destruct u as [name|text|name|text|];
    try (now contradiction Hmsg); unfold dispatch, update_message.
  - destruct (String.eqb (lower name) "start"); [exists st; split; auto|].
    destruct st; destruct (String.eqb (lower name) _); simpl in *;
      eexists; (split; [reflexivity|]); simpl; auto.
  - destruct st; simpl in *.
    + exists ORDER_SIZE. simpl. eauto.
    + unfold order_size_received. py_unfold.
      destruct (py_float (strip text)); simpl;
        eexists; (split; [reflexivity|]); simpl; auto.
    + unfold profit_received. py_unfold. destruct Hinv as [[t Ht] [z Hz]].
      destruct (py_float (strip text)); simpl.
      * rewrite Ht. simpl. rewrite Hz. simpl. exists END. simpl. auto.
      * exists PROFIT_PCT. simpl. rewrite Ht, Hz. eauto.
    + exists END. simpl. auto.
Qed.

(** Every update keeps the earlier steps stored, whether it is handled or
    raises. *)
Lemma dispatch_keeps_steps_stored (st : ConvState) (u : Update) (w : World) :
  steps_stored st w ->
  match dispatch py_float st u w with
  | (inr st', w') => steps_stored st' w'
  | (inl _, w') => steps_stored st w'
  end.
Proof.
  intros Hinv. destruct (update_message u) as [m|] eqn:Hm.
  - destruct (dispatch_steps_stored st u w Hinv) as (st' & Hd & Hinv');
      [congruence|].
    destruct (dispatch py_float st u w) as [[e|st1] w1]; simpl in *;
      [discriminate Hd|]. now injection Hd as ->.
  - destruct (dispatch_without_message py_float st u w Hm) as [-> | ->];
      exact Hinv.
Qed.

(** From the start of the bot on, the state reached always has its earlier
    steps stored. *)
Lemma run_polling_steps_stored (us : list Update) :
  forall (st : ConvState) (w : World),
    steps_stored st w ->
    steps_stored (fst (run_polling py_float st us w))
                 (snd (run_polling py_float st us w)).
Proof.
  induction us as [|u rest IH]; intros st w Hinv; simpl; [exact Hinv|].
  pose proof (dispatch_keeps_steps_stored st u w Hinv) as Hinv'.
  destruct (dispatch py_float st u w) as [[e|st1] w1]; now apply IH.
Qed.


(** The three steps in order, each with text the step accepts, end the
    conversation with the entry written under the upper-cased ticker. *)
Lemma session_completes (w : World) (t1 t2 t3 : string) (size percent : float) :
  py_float (strip t2) = Some size ->
  py_float (strip t3) = Some percent ->
  fst (run_polling py_float END
         [Command "set"; Text t1; Text t2; Text t3] w) = END /\
  configs (snd (run_polling py_float END
                  [Command "set"; Text t1; Text t2; Text t3] w)) =
    <[upper (strip t1) := mkConfig size percent]> (configs w).
Proof.
  intros H2 H3. unfold run_polling, dispatch. simpl.
  unfold order_size_received, profit_received.
  py_unfold. rewrite H2. simpl. rewrite H3. simpl. auto.
Qed.

End Sessions.

(** ** The claim on the configuration dialogue *)



(** Sessions on the literal reader: one cancelled after two steps and one
    abandoned after two steps leave the store as it was; a complete one
    overwrites the entry of its ticker. *)
Example cancelled_session_keeps_store :
  run_polling float_of_literal END
    [Command "set"; Text " aapl "; Text "2000"; Command "cancel"]
    (aapl_world 1000 2.5)
  = (END,
     mkWorld (configs (aapl_world 1000 2.5)) [] []
             (mkUserData (Some "AAPL"%string) (Some 2000%float))
             [AskTicker; TickerSet "AAPL"; OrderSizeSet 2000;
              ConfigurationCanceled]).
Proof. vm_compute; reflexivity. Qed.

Example abandoned_session_keeps_store :
  configs (snd (run_polling float_of_literal END
                  [Command "set"; Text "aapl"; Text "abc"; Text "2000"]
                  (aapl_world 1000 2.5)))
  = configs (aapl_world 1000 2.5) /\
  fst (run_polling float_of_literal END
         [Command "set"; Text "aapl"; Text "abc"; Text "2000"]
         (aapl_world 1000 2.5)) = PROFIT_PCT.
Proof. split; vm_compute; reflexivity. Qed.

Example completed_session_overwrites :
  configs (snd (run_polling float_of_literal END
                  [Command "set"; Text "aapl"; Text "2000"; Text "1.5"]
                  (aapl_world 1000 2.5)))
    !! "AAPL"%string = Some (mkConfig 2000 1.5).
Proof. vm_compute; reflexivity. Qed.


(** ** Further facts on binary64 values and on [upper] *)

Lemma SFcompare_refl (x : spec_float) :
  x <> S754_nan -> SFcompare x x = Some Eq.
Proof.
  destruct x as [s|s| |s m e]; intros Hx; try contradiction;
    try (destruct s; reflexivity).
  destruct s; simpl; rewrite Z.compare_refl;
    change (PosDef.Pos.compare_cont Eq m m) with (Pos.compare m m);
    now rewrite Pos.compare_refl.
Qed.

(** A NaN is the one value that does not compare equal to itself. *)
Lemma is_nan_spec (x : float) : is_nan x = true -> Prim2SF x = S754_nan.
Proof.
  unfold is_nan. rewrite FloatAxioms.eqb_spec. unfold SFeqb. intros H.
  destruct (Prim2SF x) as [s|s| |s m e] eqn:E; try reflexivity;
    rewrite SFcompare_refl in H; discriminate.
Qed.

(** No comparison with a NaN on either side holds. *)
Lemma ltb_nan_l (x y : float) : is_nan x = true -> (x <? y)%float = false.
Proof.
  intros H. rewrite FloatAxioms.ltb_spec, (is_nan_spec x H). reflexivity.
Qed.

Lemma ltb_nan_r (x y : float) : is_nan y = true -> (x <? y)%float = false.
Proof.
  intros H. rewrite FloatAxioms.ltb_spec, (is_nan_spec y H).
  unfold SFltb. now destruct (Prim2SF x) as [s|s| |s m e].
Qed.

(** Rounding keeps the sign it is given. *)
Lemma binary_round_aux_keeps_sign (s : bool) (m e : Z) (l : location) :
  match binary_round_aux prec emax s m e l with
  | S754_finite s' _ _ => s' = s
  | _ => True
  end.
Proof.
  unfold binary_round_aux.
  destruct (shr_fexp prec emax m e l) as [mrs e1].
  destruct (shr_fexp prec emax _ e1 loc_Exact) as [mrs' e2].
  destruct (shr_m mrs'); auto.
  destruct (e2 <=? emax - prec); auto.
Qed.

(** A float at most zero is a zero, a negative finite value or [-oo]. *)
Lemma nonpositive_shape (x : float) :
  (x <=? 0)%float = true ->
  (exists s, Prim2SF x = S754_zero s) \/
  (exists m e, Prim2SF x = S754_finite true m e) \/
  Prim2SF x = S754_infinity true.
Proof.
  rewrite FloatAxioms.leb_spec. unfold SFleb.
  change (Prim2SF 0) with (S754_zero false).
  destruct (Prim2SF x) as [s|s| |s m e]; simpl; try discriminate;
    try (destruct s; simpl; try discriminate); eauto.
Qed.

(** Something at most zero divided by something above zero is never a
    positive finite value. *)
Lemma div_nonpositive_sign (x y : float) :
  (x <=? 0)%float = true -> (0 <? y)%float = true ->
  match Prim2SF (x / y) with
  | S754_finite false _ _ => False
  | _ => True
  end.
Proof.
  intros Hx Hy. rewrite div_spec.
  destruct (nonpositive_shape x Hx) as [[s ->]|[(mx & ex & ->)| ->]],
           (positive_shape y Hy) as [(my & ey & ->)| ->];
    unfold SF64div, SFdiv; auto.
  destruct (SFdiv_core_binary prec emax (Z.pos mx) ex (Z.pos my) ey)
    as [[mz ez] lz]. simpl xorb.
  pose proof (binary_round_aux_keeps_sign true mz ez lz) as H.
  destruct (binary_round_aux prec emax true mz ez lz) as [| | |s' m' e'];
    auto. now subst s'.
Qed.

(** [int()] of a float that is not a positive finite value, when it is
    defined, is at most zero. *)
Lemma int_of_float_nonpositive (q : float) (z : Z) :
  match Prim2SF q with S754_finite false _ _ => False | _ => True end ->
  int_of_float q = inr z -> z <= 0.
Proof.
  unfold int_of_float, trunc_finite.
  destruct (Prim2SF q) as [s|s| |s m e]; try discriminate.
  - intros _ [= <-]. lia.
  - destruct s; [|contradiction]. intros _ [= <-]. simpl.
    pose proof (Z.shiftl_nonneg (Z.pos m) e). lia.
Qed.

Lemma upper_ascii_idem (c : ascii) :
  upper_ascii (upper_ascii c) = upper_ascii c.
Proof. destruct c as [[] [] [] [] [] [] [] []]; reflexivity. Qed.

(** Upper-casing twice is upper-casing once. *)
Lemma upper_idem (s : string) : upper (upper s) = upper s.
Proof.
  induction s as [|c s IH]; simpl; [reflexivity|].
  now rewrite upper_ascii_idem, IH.
Qed.

(** ** What a signal leaves behind *)

Lemma extend_extend (w : World) (no1 no2 : list (string * LimitOrder))
      (nl1 nl2 : list LogRecord) :
  extend (extend w no1 nl1) no2 nl2 = extend w (no1 ++ no2) (nl1 ++ nl2).
Proof. unfold extend. simpl. now rewrite <- !app_assoc. Qed.

Section Frames.

Variable py_float : string -> option float.
Variable ib : IB.

(** The buy path reads the store and the broker only: on two worlds with
    the same store it has the same outcome and appends the same records. *)
Lemma handle_buy_frame (ticker : string) (w1 w2 : World) :
  configs w1 = configs w2 ->
  exists r new_orders new_log,
    handle_buy py_float ib ticker w1 = (r, extend w1 new_orders new_log) /\
    handle_buy py_float ib ticker w2 = (r, extend w2 new_orders new_log) /\
    (new_orders = [] \/
     exists o, new_orders = [(ticker, o)] /\ action o = BUY /\ r = inr tt).
Proof.
  destruct w1 as [c1 o1 l1 u1 r1], w2 as [c2 o2 l2 u2 r2]. simpl.
  intros <-. py_unfold.
  destruct (c1 !! ticker) as [cfg|]; simpl;
    [|frame_leaf (@nil (string * LimitOrder)) [NoConfiguration ticker]].
  destruct (available_funds py_float (accountValues ib)) as [e|a]; simpl;
    [frame_leaf (@nil (string * LimitOrder)) (@nil LogRecord)|].
  destruct (a <? order_size cfg)%float; simpl;
    [frame_leaf (@nil (string * LimitOrder))
       [AvailableFunds a; InsufficientFunds ticker (order_size cfg) a]|].
  destruct (buy_quantity _ _) as [e|qty]; simpl;
    [frame_leaf (@nil (string * LimitOrder)) [AvailableFunds a]|].
  destruct (qty <=? 0); simpl.
  - frame_leaf (@nil (string * LimitOrder))
      [AvailableFunds a;
       ZeroQuantity ticker (buy_price (reqMktData ib ticker))].
  - frame_leaf [(ticker, mkLimitOrder BUY (PyInt qty)
                           (buy_price (reqMktData ib ticker)))]
      [AvailableFunds a;
       PlacedBuy ticker qty (buy_price (reqMktData ib ticker))].
Qed.

Lemma handle_sell_frame (ticker : string) (w1 w2 : World) :
  configs w1 = configs w2 ->
  exists r new_orders new_log,
    handle_sell ib ticker w1 = (r, extend w1 new_orders new_log) /\
    handle_sell ib ticker w2 = (r, extend w2 new_orders new_log) /\
    (new_orders = [] \/
     exists o, new_orders = [(ticker, o)] /\ action o = SELL /\ r = inr tt).
Proof.
  destruct w1 as [c1 o1 l1 u1 r1], w2 as [c2 o2 l2 u2 r2]. simpl.
  intros <-. py_unfold.
  destruct (c1 !! ticker) as [cfg|]; simpl;
    [|frame_leaf (@nil (string * LimitOrder)) [NoConfiguration ticker]].
  destruct (List.find _ _) as [p|]; simpl;
    [|frame_leaf (@nil (string * LimitOrder)) [NoOpenPosition ticker]].
  frame_leaf (@nil (string * LimitOrder)) (@nil LogRecord).
Qed.

(** The same for the whole route. An order it appends is for the
    upper-cased ticker, on the side the action names, and the answer is then
    [processed]. *)
Lemma webhook_frame (data : Payload) (w1 w2 : World) :
  configs w1 = configs w2 ->
  exists r new_orders new_log,
    webhook py_float ib data w1 = (r, extend w1 new_orders new_log) /\
    webhook py_float ib data w2 = (r, extend w2 new_orders new_log) /\
    (new_orders = [] \/
     exists o,
       new_orders = [(upper (default ""%string (p_ticker data)), o)] /\
       r = inr processed /\
       ((upper (default ""%string (p_action data)) = "BUY"%string /\
         action o = BUY) \/
        (upper (default ""%string (p_action data)) = "SELL"%string /\
         action o = SELL))).
Proof.
  intros H. unfold webhook.
  set (ticker := upper (default ""%string (p_ticker data))).
  set (act := upper (default ""%string (p_action data))).
  set (h := if String.eqb act "BUY" then handle_buy py_float ib ticker
            else if String.eqb act "SELL" then handle_sell ib ticker
                 else logger (UnknownAction act ticker)).
  assert (Hh : exists r no nl,
             h (extend w1 [] [WebhookReceived act ticker])
               = (r, extend (extend w1 [] [WebhookReceived act ticker]) no nl) /\
             h (extend w2 [] [WebhookReceived act ticker])
               = (r, extend (extend w2 [] [WebhookReceived act ticker]) no nl) /\
             (no = [] \/
              exists o, no = [(ticker, o)] /\ r = inr tt /\
                ((act = "BUY"%string /\ action o = BUY) \/
                 (act = "SELL"%string /\ action o = SELL)))).
  { subst h. destruct (String.eqb act "BUY") eqn:Eb.
    - apply String.eqb_eq in Eb.
      destruct (handle_buy_frame ticker
                  (extend w1 [] [WebhookReceived act ticker])
                  (extend w2 [] [WebhookReceived act ticker]) H)
        as (r & no & nl & H1 & H2 & [Hn|(o & Hn & Ho & Hr)]);
        exists r, no, nl; repeat split; auto. right. exists o. auto.
    - destruct (String.eqb act "SELL") eqn:Es.
      + apply String.eqb_eq in Es.
        destruct (handle_sell_frame ticker
                    (extend w1 [] [WebhookReceived act ticker])
                    (extend w2 [] [WebhookReceived act ticker]) H)
          as (r & no & nl & H1 & H2 & [Hn|(o & Hn & Ho & Hr)]);
          exists r, no, nl; repeat split; auto. right. exists o. auto.
      + exists (inr tt), [], [UnknownAction act ticker].
        unfold logger, extend. simpl. rewrite !app_nil_r. auto. }
  destruct Hh as (r & no & nl & H1 & H2 & Hno).
  exists (match r with inr _ => inr processed | inl e => inl e end),
         no, (WebhookReceived act ticker :: nl).
  assert (Hlog : forall w, snd (logger (WebhookReceived act ticker) w)
                           = extend w [] [WebhookReceived act ticker]).
  { intros w. unfold logger, extend. simpl. now rewrite app_nil_r. }
  assert (Hrun : forall w,
             h (extend w [] [WebhookReceived act ticker])
               = (r, extend (extend w [] [WebhookReceived act ticker]) no nl) ->
             (logger (WebhookReceived act ticker) ;; h ;; ret processed)%py w
               = (match r with inr _ => inr processed | inl e => inl e end,
                  extend w no (WebhookReceived act ticker :: nl))).
  { intros w Hw. unfold bind at 1.
    destruct (logger (WebhookReceived act ticker) w) as [[e|[]] w'] eqn:El;
      [discriminate El|].
    assert (w' = extend w [] [WebhookReceived act ticker]) as ->
        by (rewrite <- Hlog, El; reflexivity).
    unfold bind, ret. rewrite Hw, extend_extend. simpl. now destruct r. }
  split; [exact (Hrun w1 H1)|]. split; [exact (Hrun w2 H2)|].
  destruct Hno as [Hn|(o & Hn & -> & Hside)]; [now left|].
  right. exists o. auto.
Qed.

End Frames.

Lemma extend_inv (w : World) (no1 no2 : list (string * LimitOrder))
      (nl1 nl2 : list LogRecord) :
  extend w no1 nl1 = extend w no2 nl2 -> no1 = no2 /\ nl1 = nl2.
Proof.
  unfold extend. intros [= Ho Hl].
  split; [exact (app_inv_head _ _ _ Ho)|exact (app_inv_head _ _ _ Hl)].
Qed.


Lemma find_all_false {A} (f : A -> bool) (l : list A) :
  (forall y, In y l -> f y = false) -> List.find f l = None.
Proof.
  intros H. destruct (List.find f l) as [x|] eqn:E; [|reflexivity].
  apply List.find_some in E as [Hin Hx]. rewrite (H x Hin) in Hx. discriminate.
Qed.

Section SignalExtras.

Variable py_float : string -> option float.
Variable ib : IB.

(** Every way the buy path can end, with what it leaves in the orders. *)
Lemma handle_buy_order_cases (ticker : string) (w : World) :
  orders (snd (handle_buy py_float ib ticker w)) = orders w \/
  exists cfg available qty,
    configs w !! ticker = Some cfg /\
    available_funds py_float (accountValues ib) = inr available /\
    (available <? order_size cfg)%float = false /\
    buy_quantity (order_size cfg) (buy_price (reqMktData ib ticker)) = inr qty /\
    0 < qty /\
    fst (handle_buy py_float ib ticker w) = inr tt /\
    orders (snd (handle_buy py_float ib ticker w)) =
      orders w ++ [(ticker, mkLimitOrder BUY (PyInt qty)
                              (buy_price (reqMktData ib ticker)))].
Proof.
  destruct (configs w !! ticker) as [cfg|] eqn:Hcfg;
    [|left; now apply handle_buy_unconfigured].
  destruct (available_funds py_float (accountValues ib)) as [e|a] eqn:Ha;
    [left; now apply (handle_buy_funds_error py_float ib ticker w cfg e)|].
  destruct (a <? order_size cfg)%float eqn:Hlt;
    [left; now apply (handle_buy_insufficient py_float ib ticker w cfg a)|].
  destruct (buy_quantity (order_size cfg) (buy_price (reqMktData ib ticker)))
    as [e|qty] eqn:Hq;
    [left; now apply (handle_buy_quantity_error py_float ib ticker w cfg a e)|].
  destruct (handle_buy_quantity py_float ib ticker w cfg a qty Hcfg Ha Hlt Hq)
    as [Hr Ho].
  destruct (qty <=? 0) eqn:Hle; [now left|].
  right. exists cfg, a, qty. repeat split; auto. lia.
Qed.

(** Every way the sell path can end: a logged return, or the
    [AttributeError] of line 204 once an open position is found; never an
    order. *)
Lemma handle_sell_cases (ticker : string) (w : World) :
  (fst (handle_sell ib ticker w) = inr tt /\
   orders (snd (handle_sell ib ticker w)) = orders w /\
   (configs w !! ticker = None \/
    List.find (is_open_position ticker) (positions ib) = None)) \/
  (exists cfg p,
      configs w !! ticker = Some cfg /\
      List.find (is_open_position ticker) (positions ib) = Some p /\
      handle_sell ib ticker w = (inl AttributeError, w)).
Proof.
  destruct (configs w !! ticker) as [cfg|] eqn:Hcfg.
  - destruct (List.find (is_open_position ticker) (positions ib)) as [p|] eqn:Hp.
    + right. exists cfg, p. repeat split; auto.
      now apply handle_sell_open_position with cfg p.
    + left. destruct (handle_sell_no_position ib ticker w cfg Hcfg Hp). auto.
  - left. destruct (handle_sell_unconfigured ib ticker w Hcfg). auto.
Qed.

End SignalExtras.

(** ** Further properties of the signal path *)

(** X1. A signal only appends: the store, the user data and the replies are
    as before, the earlier orders and log records are kept in place, and at
    most one order is added. An added order is for the upper-cased ticker of
    the request, on the side its action names, and the route then answers
    [processed]. *)
Theorem signal_only_appends
        (py_float : string -> option float) (ib : IB) (data : Payload)
        (w : World) :
  exists r new_orders new_log,
    webhook py_float ib data w = (r, extend w new_orders new_log) /\
    (new_orders = [] \/
     exists o,
       new_orders = [(upper (default ""%string (p_ticker data)), o)] /\
       r = inr processed /\
       ((upper (default ""%string (p_action data)) = "BUY"%string /\
         action o = BUY) \/
        (upper (default ""%string (p_action data)) = "SELL"%string /\
         action o = SELL))).
Proof.
  destruct (webhook_frame py_float ib data w w eq_refl)
    as (r & no & nl & H1 & _ & H).
  exists r, no, nl. auto.
Qed.

(** X2. Nothing remembers an earlier signal: the same request handled a
    second time, with the same broker answers, has the same outcome and
    appends the same orders and log records again, so an order is placed
    twice. *)
Theorem repeated_signal_repeats_order
        (py_float : string -> option float) (ib : IB) (data : Payload)
        (w : World) :
  exists r new_orders new_log,
    webhook py_float ib data w = (r, extend w new_orders new_log) /\
    webhook py_float ib data (snd (webhook py_float ib data w)) =
      (r, extend w (new_orders ++ new_orders) (new_log ++ new_log)).
Proof.
  destruct (webhook_frame py_float ib data w w eq_refl)
    as (r & no & nl & H1 & _ & _).
  exists r, no, nl. split; [exact H1|]. rewrite H1. simpl.
  destruct (webhook_frame py_float ib data w (extend w no nl) eq_refl)
    as (r' & no' & nl' & H1' & H2' & _).
  rewrite H1 in H1'.
  pose proof (f_equal fst H1') as Hr. pose proof (f_equal snd H1') as Hw.
  simpl in Hr, Hw. apply extend_inv in Hw as [<- <-]. subst r'.
  now rewrite H2', extend_extend.
Qed.

(** X3. A BUY order is submitted only past every gate: whenever the buy
    path changes the orders, the symbol is configured, the funds text parsed
    to a value not below the order size, the quantity [int(order_size /
    price)] is defined and above zero, the call returns normally and the one
    order added is a BUY for that quantity at the selected price. *)
Theorem buy_order_implies_gates
        (py_float : string -> option float) (ib : IB) (ticker : string)
        (w : World) :
  orders (snd (handle_buy py_float ib ticker w)) <> orders w ->
  exists cfg available qty,
    configs w !! ticker = Some cfg /\
    available_funds py_float (accountValues ib) = inr available /\
    (available <? order_size cfg)%float = false /\
    buy_quantity (order_size cfg) (buy_price (reqMktData ib ticker)) = inr qty /\
    0 < qty /\
    fst (handle_buy py_float ib ticker w) = inr tt /\
    orders (snd (handle_buy py_float ib ticker w)) =
      orders w ++ [(ticker, mkLimitOrder BUY (PyInt qty)
                              (buy_price (reqMktData ib ticker)))].
Proof.
  intros Hne.
  destruct (handle_buy_order_cases py_float ib ticker w) as [H|H];
    [contradiction|exact H].
Qed.

Lemma buy_order_implies_gates_witness :
  orders (snd (handle_buy float_of_literal
                 (broker "5000" (mkTickerData 333 332 334) []) "AAPL"
                 (aapl_world 1000 2.5)))
    <> orders (aapl_world 1000 2.5) /\
  exists cfg available qty,
    configs (aapl_world 1000 2.5) !! "AAPL"%string = Some cfg /\
    available_funds float_of_literal
      (accountValues (broker "5000" (mkTickerData 333 332 334) []))
      = inr available /\
    (available <? order_size cfg)%float = false /\
    buy_quantity (order_size cfg)
      (buy_price (reqMktData (broker "5000" (mkTickerData 333 332 334) [])
                    "AAPL")) = inr qty /\
    0 < qty /\
    fst (handle_buy float_of_literal
           (broker "5000" (mkTickerData 333 332 334) []) "AAPL"
           (aapl_world 1000 2.5)) = inr tt /\
    orders (snd (handle_buy float_of_literal
                   (broker "5000" (mkTickerData 333 332 334) []) "AAPL"
                   (aapl_world 1000 2.5))) =
      orders (aapl_world 1000 2.5) ++
      [("AAPL"%string,
        mkLimitOrder BUY (PyInt qty)
          (buy_price (reqMktData (broker "5000" (mkTickerData 333 332 334) [])
                        "AAPL")))].
Proof.
  assert (H : orders (snd (handle_buy float_of_literal
                             (broker "5000" (mkTickerData 333 332 334) [])
                             "AAPL" (aapl_world 1000 2.5)))
              <> orders (aapl_world 1000 2.5))
    by (vm_compute; discriminate).
  exact (conj H (buy_order_implies_gates float_of_literal
                   (broker "5000" (mkTickerData 333 332 334) []) "AAPL"
                   (aapl_world 1000 2.5) H)).
Defined.

(** X4. The sell path never submits an order. It returns normally when
    the symbol is not configured or no open position is found for it, and once
    a position for the symbol with a quantity above zero is found it raises
    [AttributeError] with the world untouched. *)
Theorem sell_path_outcomes
        (ib : IB) (ticker : string) (w : World) :
  orders (snd (handle_sell ib ticker w)) = orders w /\
  ((fst (handle_sell ib ticker w) = inr tt /\
    (configs w !! ticker = None \/
     List.find (is_open_position ticker) (positions ib) = None)) \/
   (exists cfg p,
       configs w !! ticker = Some cfg /\
       List.find (is_open_position ticker) (positions ib) = Some p /\
       upper (symbol p) = ticker /\
       (0 <? position p)%float = true /\
       handle_sell ib ticker w = (inl AttributeError, w))).
Proof.
  destruct (handle_sell_cases ib ticker w)
    as [(Hr & Ho & Hwhy)|(cfg & p & Hcfg & Hp & Hrun)].
  - split; [exact Ho|]. left. auto.
  - split; [now rewrite Hrun|]. right.
    destruct (open_position_found ib ticker p Hp) as (_ & Hs & Hq).
    exists cfg, p. auto 6.
Qed.

(** X5. Nothing to sell: when no position of the broker is for the symbol
    with a quantity above zero (none at all, other symbols only, flat or short
    positions), the sell path returns normally and submits no order, whatever
    the store holds. *)
Theorem sell_without_open_position
        (ib : IB) (ticker : string) (w : World) :
  (forall p, In p (positions ib) -> upper (symbol p) = ticker ->
             (0 <? position p)%float = false) ->
  fst (handle_sell ib ticker w) = inr tt /\
  orders (snd (handle_sell ib ticker w)) = orders w.
Proof.
  intros Hnone.
  assert (Hfind : List.find (is_open_position ticker) (positions ib) = None).
  { apply find_all_false. intros p Hin. unfold is_open_position.
    destruct (String.eqb (upper (symbol p)) ticker) eqn:E; [|reflexivity].
    apply String.eqb_eq in E. simpl. now apply Hnone. }
  destruct (configs w !! ticker) as [cfg|] eqn:Hcfg.
  - now apply (handle_sell_no_position ib ticker w cfg).
  - now apply handle_sell_unconfigured.
Qed.

Lemma sell_without_open_position_witness :
  (forall p,
      In p (positions (broker "0" (mkTickerData 103 102 104)
                         [mkPosition "DU1" "AAPL" (-5) 100;
                          mkPosition "DU1" "MSFT" 7 40])) ->
      upper (symbol p) = "AAPL"%string ->
      (0 <? position p)%float = false) /\
  fst (handle_sell
         (broker "0" (mkTickerData 103 102 104)
            [mkPosition "DU1" "AAPL" (-5) 100; mkPosition "DU1" "MSFT" 7 40])
         "AAPL" (aapl_world 1000 2.5)) = inr tt /\
  orders (snd (handle_sell
                 (broker "0" (mkTickerData 103 102 104)
                    [mkPosition "DU1" "AAPL" (-5) 100; mkPosition "DU1" "MSFT" 7 40])
                 "AAPL" (aapl_world 1000 2.5))) =
    orders (aapl_world 1000 2.5).
Proof.
  assert (H : forall p,
             In p (positions (broker "0" (mkTickerData 103 102 104)
                                [mkPosition "DU1" "AAPL" (-5) 100;
                                 mkPosition "DU1" "MSFT" 7 40])) ->
             upper (symbol p) = "AAPL"%string ->
             (0 <? position p)%float = false).
  { intros p [<-|[<-|[]]] Hs; [reflexivity|].
    vm_compute in Hs. discriminate Hs. }
  exact (conj H (sell_without_open_position _ "AAPL" (aapl_world 1000 2.5) H)).
Defined.



Lemma available_funds_skips (py_float : string -> option float)
      (before after : list AccountValue) (v : AccountValue) :
  (forall u, In u before -> is_available_usd u = false) ->
  is_available_usd v = true ->
  available_funds py_float (before ++ v :: after) =
  available_funds py_float [v].
Proof.
  induction before as [|u us IH]; intros Hb Hv; cbn [app available_funds].
  - now rewrite Hv.
  - rewrite (Hb u) by now left. rewrite IH; auto.
    intros u' Hu'. apply Hb. now right.
Qed.

(** X7. The buy path reads the first account value tagged [AvailableFunds]
    in [USD] and nothing else: values listed before it with another tag or
    currency, and every value listed after it (a second USD entry included),
    have no influence on the outcome. *)
Theorem funds_take_first_usd_entry
        (py_float : string -> option float) (ib : IB) (ticker : string)
        (w : World) (before after : list AccountValue) (v : AccountValue) :
  accountValues ib = before ++ v :: after ->
  (forall u, In u before -> is_available_usd u = false) ->
  is_available_usd v = true ->
  handle_buy py_float ib ticker w =
  handle_buy py_float (with_account_values ib [v]) ticker w.
Proof.
  intros Hav Hb Hv. unfold handle_buy.
  rewrite Hav, (available_funds_skips py_float before after v Hb Hv).
  reflexivity.
Qed.

Lemma funds_take_first_usd_entry_witness :
  accountValues (broker "5000" (mkTickerData 333 332 334) [])
  = [mkAccountValue "AvailableFunds" "EUR" "1"]
    ++ mkAccountValue "AvailableFunds" "USD" "5000" :: [] /\
  (forall u, In u [mkAccountValue "AvailableFunds" "EUR" "1"] ->
             is_available_usd u = false) /\
  is_available_usd (mkAccountValue "AvailableFunds" "USD" "5000") = true /\
  handle_buy float_of_literal (broker "5000" (mkTickerData 333 332 334) [])
    "AAPL" (aapl_world 1000 2.5)
  = handle_buy float_of_literal
      (with_account_values (broker "5000" (mkTickerData 333 332 334) [])
         [mkAccountValue "AvailableFunds" "USD" "5000"])
      "AAPL" (aapl_world 1000 2.5).
Proof.
  assert (H1 : accountValues (broker "5000" (mkTickerData 333 332 334) [])
               = [mkAccountValue "AvailableFunds" "EUR" "1"]
                 ++ mkAccountValue "AvailableFunds" "USD" "5000" :: [])
    by reflexivity.
  assert (H2 : forall u, In u [mkAccountValue "AvailableFunds" "EUR" "1"] ->
                         is_available_usd u = false)
    by (intros u [<-|[]]; reflexivity).
  assert (H3 : is_available_usd
                 (mkAccountValue "AvailableFunds" "USD" "5000") = true)
    by reflexivity.
  exact (conj H1 (conj H2 (conj H3
           (funds_take_first_usd_entry float_of_literal _ "AAPL"
              (aapl_world 1000 2.5) _ _ _ H1 H2 H3)))).
Defined.

(** X8. The funds gate lets exactly enough through: with available funds
    equal to the order size and a quantity above zero, the BUY order is
    submitted. *)
Theorem exact_funds_pass_gate
        (py_float : string -> option float) (ib : IB) (ticker : string)
        (w : World) (cfg : Config) (available : float) (qty : Z) :
  configs w !! ticker = Some cfg ->
  available_funds py_float (accountValues ib) = inr available ->
  (available =? order_size cfg)%float = true ->
  buy_quantity (order_size cfg) (buy_price (reqMktData ib ticker)) = inr qty ->
  0 < qty ->
  fst (handle_buy py_float ib ticker w) = inr tt /\
  orders (snd (handle_buy py_float ib ticker w)) =
    orders w ++ [(ticker, mkLimitOrder BUY (PyInt qty)
                            (buy_price (reqMktData ib ticker)))].
Proof.
  intros Hcfg Ha Heq Hq Hpos.
  pose proof (eqb_true_ltb_false _ _ Heq) as Hlt.
  destruct (handle_buy_quantity py_float ib ticker w cfg available qty
              Hcfg Ha Hlt Hq) as [Hr Ho].
  split; [exact Hr|]. rewrite Ho.
  destruct (qty <=? 0) eqn:E; [lia|reflexivity].
Qed.

Lemma exact_funds_pass_gate_witness :
  configs (aapl_world 1000 2.5) !! "AAPL"%string = Some (mkConfig 1000 2.5) /\
  available_funds float_of_literal
    (accountValues (broker "1000" (mkTickerData 333 332 334) []))
    = inr 1000%float /\
  (1000 =? 1000)%float = true /\
  buy_quantity 1000 333 = inr 3 /\
  0 < 3 /\
  fst (handle_buy float_of_literal
         (broker "1000" (mkTickerData 333 332 334) []) "AAPL"
         (aapl_world 1000 2.5)) = inr tt /\
  orders (snd (handle_buy float_of_literal
                 (broker "1000" (mkTickerData 333 332 334) []) "AAPL"
                 (aapl_world 1000 2.5))) =
    [] ++ [("AAPL"%string, mkLimitOrder BUY (PyInt 3) 333)].
Proof.
  assert (H1 : configs (aapl_world 1000 2.5) !! "AAPL"%string
               = Some (mkConfig 1000 2.5)) by (vm_compute; reflexivity).
  assert (H2 : available_funds float_of_literal
                 (accountValues (broker "1000" (mkTickerData 333 332 334) []))
               = inr 1000%float) by (vm_compute; reflexivity).
  assert (H3 : (1000 =? 1000)%float = true) by reflexivity.
  assert (H4 : buy_quantity 1000 333 = inr 3) by (vm_compute; reflexivity).
  assert (H5 : 0 < 3) by lia.
  exact (conj H1 (conj H2 (conj H3 (conj H4 (conj H5
           (exact_funds_pass_gate float_of_literal
              (broker "1000" (mkTickerData 333 332 334) []) "AAPL"
              (aapl_world 1000 2.5) (mkConfig 1000 2.5) 1000 3
              H1 H2 H3 H4 H5)))))).
Defined.

Lemma buy_quantity_nan_size (size price : float) :
  is_nan size = true -> (price =? 0)%float = false ->
  buy_quantity size price = inl ValueError.
Proof.
  intros Hnan Hz. unfold buy_quantity, truediv, int_of_float.
  rewrite Hz, div_spec, (is_nan_spec size Hnan).
  unfold SF64div, SFdiv. now destruct (Prim2SF price).
Qed.

(** X10. A NaN order size, which the dialogue accepts, disables buying: no
    funds are below a NaN, so the gate lets every signal through, and with a
    price other than zero the quantity [int(nan / price)] raises
    [ValueError]; no order is submitted. *)
Theorem nan_order_size_raises
        (py_float : string -> option float) (ib : IB) (ticker : string)
        (w : World) (cfg : Config) (available : float) :
  configs w !! ticker = Some cfg ->
  is_nan (order_size cfg) = true ->
  available_funds py_float (accountValues ib) = inr available ->
  (buy_price (reqMktData ib ticker) =? 0)%float = false ->
  fst (handle_buy py_float ib ticker w) = inl ValueError /\
  orders (snd (handle_buy py_float ib ticker w)) = orders w.
Proof.
  intros Hcfg Hnan Ha Hz.
  exact (handle_buy_quantity_error py_float ib ticker w cfg available _
           Hcfg Ha (ltb_nan_r _ _ Hnan)
           (buy_quantity_nan_size _ _ Hnan Hz)).
Qed.

Lemma nan_order_size_witness :
  configs (aapl_world nan 2.5) !! "AAPL"%string = Some (mkConfig nan 2.5) /\
  is_nan (order_size (mkConfig nan 2.5)) = true /\
  available_funds float_of_literal
    (accountValues (broker "5000" (mkTickerData 333 332 334) []))
    = inr 5000%float /\
  (buy_price (reqMktData (broker "5000" (mkTickerData 333 332 334) []) "AAPL")
   =? 0)%float = false /\
  fst (handle_buy float_of_literal
         (broker "5000" (mkTickerData 333 332 334) []) "AAPL"
         (aapl_world nan 2.5)) = inl ValueError /\
  orders (snd (handle_buy float_of_literal
                 (broker "5000" (mkTickerData 333 332 334) []) "AAPL"
                 (aapl_world nan 2.5))) = orders (aapl_world nan 2.5).
Proof.
  assert (H1 : configs (aapl_world nan 2.5) !! "AAPL"%string
               = Some (mkConfig nan 2.5)) by (vm_compute; reflexivity).
  assert (H2 : is_nan (order_size (mkConfig nan 2.5)) = true) by reflexivity.
  assert (H3 : available_funds float_of_literal
                 (accountValues (broker "5000" (mkTickerData 333 332 334) []))
               = inr 5000%float) by (vm_compute; reflexivity).
  assert (H4 : (buy_price (reqMktData
                             (broker "5000" (mkTickerData 333 332 334) [])
                             "AAPL") =? 0)%float = false) by reflexivity.
  exact (conj H1 (conj H2 (conj H3 (conj H4
           (nan_order_size_raises float_of_literal
              (broker "5000" (mkTickerData 333 332 334) []) "AAPL"
              (aapl_world nan 2.5) (mkConfig nan 2.5) 5000
              H1 H2 H3 H4))))).
Defined.

(** X11. An order size that is zero or negative, which the dialogue
    accepts, never buys: at a selected price above zero the quantity is at
    most zero whenever it is defined, and the buy path submits no order. *)
Theorem nonpositive_order_size_never_buys
        (py_float : string -> option float) (ib : IB) (ticker : string)
        (w : World) (cfg : Config) :
  configs w !! ticker = Some cfg ->
  (order_size cfg <=? 0)%float = true ->
  (0 <? buy_price (reqMktData ib ticker))%float = true ->
  orders (snd (handle_buy py_float ib ticker w)) = orders w.
Proof.
  intros Hcfg Hsize Hprice.
  destruct (handle_buy_order_cases py_float ib ticker w)
    as [H|(cfg' & a & qty & Hcfg' & _ & _ & Hq & Hpos & _)]; [exact H|].
  rewrite Hcfg in Hcfg'. injection Hcfg' as <-.
  exfalso. unfold buy_quantity, truediv in Hq.
  destruct (buy_price (reqMktData ib ticker) =? 0)%float; [discriminate Hq|].
  pose proof (int_of_float_nonpositive _ qty
                (div_nonpositive_sign _ _ Hsize Hprice) Hq).
  lia.
Qed.

Lemma nonpositive_order_size_witness :
  configs (aapl_world (-5) 2.5) !! "AAPL"%string = Some (mkConfig (-5) 2.5) /\
  (order_size (mkConfig (-5) 2.5) <=? 0)%float = true /\
  (0 <? buy_price (reqMktData (broker "5000" (mkTickerData 333 332 334) [])
                     "AAPL"))%float = true /\
  orders (snd (handle_buy float_of_literal
                 (broker "5000" (mkTickerData 333 332 334) []) "AAPL"
                 (aapl_world (-5) 2.5))) = orders (aapl_world (-5) 2.5).
Proof.
  assert (H1 : configs (aapl_world (-5) 2.5) !! "AAPL"%string
               = Some (mkConfig (-5) 2.5)) by (vm_compute; reflexivity).
  assert (H2 : (order_size (mkConfig (-5) 2.5) <=? 0)%float = true)
    by reflexivity.
  assert (H3 : (0 <? buy_price (reqMktData
                                  (broker "5000" (mkTickerData 333 332 334) [])
                                  "AAPL"))%float = true) by reflexivity.
  exact (conj H1 (conj H2 (conj H3
           (nonpositive_order_size_never_buys float_of_literal
              (broker "5000" (mkTickerData 333 332 334) []) "AAPL"
              (aapl_world (-5) 2.5) (mkConfig (-5) 2.5) H1 H2 H3)))).
Defined.

(** ** Further properties of the configuration dialogue *)

Section DialogueExtras.

Variable py_float : string -> option float.

(** The dialogue never touches the orders. *)
Lemma dispatch_orders (st : ConvState) (u : Update) (w : World) :
  orders (snd (dispatch py_float st u w)) = orders w.
Proof.
  destruct (update_message u) as [m|] eqn:Hm;
    [|destruct (dispatch_without_message py_float st u w Hm) as [-> | ->];
      reflexivity].
  destruct u as [name|text|name|text|]; try discriminate Hm;
    unfold dispatch, update_message.
  - destruct (String.eqb (lower name) "start"); [reflexivity|].
    destruct st; destruct (String.eqb (lower name) _); reflexivity.
  - destruct st; try reflexivity.
    + unfold order_size_received. py_unfold.
      destruct (py_float (strip text)); reflexivity.
    + unfold profit_received. py_unfold.
      destruct (py_float (strip text)); [|reflexivity]. simpl.
      destruct (ud_ticker (user_data w)); simpl; [|reflexivity].
      destruct (ud_order_size (user_data w)); reflexivity.
Qed.

Lemma run_polling_orders (us : list Update) :
  forall (st : ConvState) (w : World),
    orders (snd (run_polling py_float st us w)) = orders w.
Proof.
  induction us as [|u rest IH]; intros st w; simpl; [reflexivity|].
  pose proof (dispatch_orders st u w) as H.
  destruct (dispatch py_float st u w) as [[e|st1] w1]; simpl in H;
    now rewrite IH.
Qed.

Lemma dispatch_ticker_upper (st : ConvState) (u : Update) (w : World) :
  ticker_upper st w ->
  match dispatch py_float st u w with
  | (inr st', w') => ticker_upper st' w'
  | (inl _, w') => ticker_upper st w'
  end.
Proof.
  intros Hinv. destruct (update_message u) as [m|] eqn:Hm;
    [|destruct (dispatch_without_message py_float st u w Hm) as [-> | ->];
      exact Hinv].
  destruct u as [name|text|name|text|]; try discriminate Hm;
    unfold dispatch, update_message.
  - destruct (String.eqb (lower name) "start"); [exact Hinv|].
    destruct st; destruct (String.eqb (lower name) _); simpl; auto.
  - destruct st; simpl in *; auto.
    + exists (upper (strip text)). split; [reflexivity|apply upper_idem].
    + unfold order_size_received. py_unfold.
      destruct (py_float (strip text)); simpl; exact Hinv.
    + unfold profit_received. py_unfold.
      destruct (py_float (strip text)); simpl; [|exact Hinv].
      destruct Hinv as (t & Ht & Hup). rewrite Ht. simpl.
      destruct (ud_order_size (user_data w)); simpl; [exact I|eauto].
Qed.

Lemma run_polling_keys_upper (us : list Update) :
  forall (st : ConvState) (w : World) (k : string),
    ticker_upper st w ->
    configs (snd (run_polling py_float st us w)) !! k <> configs w !! k ->
    upper k = k.
Proof.
  induction us as [|u rest IH]; intros st w k Hinv Hne; simpl in Hne;
    [contradiction|].
  pose proof (dispatch_ticker_upper st u w Hinv) as Hinv'.
  destruct (dispatch_store py_float st u w)
    as [Hsame|(text & percent & ticker & size & -> & -> & _ & Ht & _ & _ & Hins)].
  - destruct (dispatch py_float st u w) as [[e|st1] w1]; simpl in *;
      rewrite <- Hsame in Hne.
    + exact (IH st w1 k Hinv' Hne).
    + exact (IH st1 w1 k Hinv' Hne).
  - destruct Hinv as (t & Ht' & Hup). rewrite Ht in Ht'. injection Ht' as <-.
    destruct (decide (k = ticker)) as [->|Hk]; [exact Hup|].
    assert (Hk' : ticker <> k) by (intros E; apply Hk; now symmetry).
    destruct (dispatch py_float PROFIT_PCT (Text text) w) as [[e|st1] w1];
      simpl in *.
    + apply (IH PROFIT_PCT w1 k Hinv').
      now rewrite Hins, lookup_insert_ne by exact Hk'.
    + apply (IH st1 w1 k Hinv').
      now rewrite Hins, lookup_insert_ne by exact Hk'.
Qed.

End DialogueExtras.

(** X12. What the dialogue stores a signal finds: after a completed
    session, a request whose ticker is the entered one up to letter case and
    surrounding white space of the entry (an absent ticker counting as the
    empty text) looks up the size and percentage just entered. *)
Theorem configured_ticker_is_found
        (py_float : string -> option float) (w : World)
        (t1 t2 t3 : string) (size percent : float) (data : Payload) :
  py_float (strip t2) = Some size ->
  py_float (strip t3) = Some percent ->
  upper (default ""%string (p_ticker data)) = upper (strip t1) ->
  fst (configs_get (upper (default ""%string (p_ticker data)))
         (snd (run_polling py_float END
                 [Command "set"; Text t1; Text t2; Text t3] w)))
  = inr (Some (mkConfig size percent)).
Proof.
  intros H2 H3 Ht.
  destruct (session_completes py_float w t1 t2 t3 size percent H2 H3)
    as [_ Hc].
  unfold configs_get. cbn [fst]. rewrite Hc, Ht.
  now rewrite lookup_insert_eq.
Qed.

Lemma configured_ticker_is_found_witness :
  float_of_literal (strip "2000") = Some 2000%float /\
  float_of_literal (strip " 1.5") = Some 1.5%float /\
  upper (default ""%string (p_ticker (mkPayload (Some "Msft") (Some "buy"))))
    = upper (strip "  msft ") /\
  fst (configs_get
         (upper (default ""%string
                   (p_ticker (mkPayload (Some "Msft") (Some "buy")))))
         (snd (run_polling float_of_literal END
                 [Command "set"; Text "  msft "; Text "2000"; Text " 1.5"]
                 (aapl_world 1000 2.5))))
  = inr (Some (mkConfig 2000 1.5)).
Proof.
  assert (H1 : float_of_literal (strip "2000") = Some 2000%float)
    by (vm_compute; reflexivity).
  assert (H2 : float_of_literal (strip " 1.5") = Some 1.5%float)
    by (vm_compute; reflexivity).
  assert (H3 : upper (default ""%string
                        (p_ticker (mkPayload (Some "Msft") (Some "buy"))))
               = upper (strip "  msft ")) by (vm_compute; reflexivity).
  exact (conj H1 (conj H2 (conj H3
           (configured_ticker_is_found float_of_literal (aapl_world 1000 2.5)
              "  msft " "2000" " 1.5" 2000 1.5
              (mkPayload (Some "Msft") (Some "buy")) H1 H2 H3)))).
Defined.

(** X13. A completed session writes one entry and nothing else: the entry
    of its upper-cased ticker is replaced by the new size and percentage,
    whatever it was, the entry of every other symbol is as before, and no
    order is touched. *)
Theorem completed_session_writes_one_entry
        (py_float : string -> option float) (w : World)
        (t1 t2 t3 : string) (size percent : float) :
  py_float (strip t2) = Some size ->
  py_float (strip t3) = Some percent ->
  configs (snd (run_polling py_float END
                  [Command "set"; Text t1; Text t2; Text t3] w))
    !! upper (strip t1) = Some (mkConfig size percent) /\
  (forall other,
      other <> upper (strip t1) ->
      configs (snd (run_polling py_float END
                      [Command "set"; Text t1; Text t2; Text t3] w))
        !! other = configs w !! other) /\
  orders (snd (run_polling py_float END
                 [Command "set"; Text t1; Text t2; Text t3] w)) = orders w.
Proof.
  intros H2 H3.
  destruct (session_completes py_float w t1 t2 t3 size percent H2 H3)
    as [_ Hc].
  rewrite Hc. split; [apply lookup_insert_eq|].
  split; [|apply run_polling_orders].
  intros other Hne. apply lookup_insert_ne. intros E. apply Hne. now symmetry.
Qed.

Lemma completed_session_writes_one_entry_witness :
  float_of_literal (strip "2000") = Some 2000%float /\
  float_of_literal (strip "1.5") = Some 1.5%float /\
  configs (snd (run_polling float_of_literal END
                  [Command "set"; Text "msft"; Text "2000"; Text "1.5"]
                  (aapl_world 1000 2.5)))
    !! upper (strip "msft") = Some (mkConfig 2000 1.5) /\
  (forall other,
      other <> upper (strip "msft") ->
      configs (snd (run_polling float_of_literal END
                      [Command "set"; Text "msft"; Text "2000"; Text "1.5"]
                      (aapl_world 1000 2.5)))
        !! other = configs (aapl_world 1000 2.5) !! other) /\
  orders (snd (run_polling float_of_literal END
                 [Command "set"; Text "msft"; Text "2000"; Text "1.5"]
                 (aapl_world 1000 2.5))) = orders (aapl_world 1000 2.5).
Proof.
  assert (H1 : float_of_literal (strip "2000") = Some 2000%float)
    by (vm_compute; reflexivity).
  assert (H2 : float_of_literal (strip "1.5") = Some 1.5%float)
    by (vm_compute; reflexivity).
  exact (conj H1 (conj H2
           (completed_session_writes_one_entry float_of_literal
              (aapl_world 1000 2.5) "msft" "2000" "1.5" 2000 1.5 H1 H2))).
Defined.

(** X14. From the start of the bot on, whatever updates arrived (edits
    included), a new message is handled without an exception: the reads of
    [user_data] in the third step never meet a missing key. An update whose
    message is not in [update.message] matches no handler or raises
    [AttributeError] in the handler called, with nothing changed. And the
    dialogue has placed no order. *)
Theorem dialogue_never_misses_a_key
        (py_float : string -> option float) (us : list Update) (w : World)
        (u : Update) :
  (update_message u <> None ->
   exists st',
     fst (dispatch py_float (fst (run_polling py_float END us w)) u
            (snd (run_polling py_float END us w))) = inr st') /\
  (update_message u = None ->
   dispatch py_float (fst (run_polling py_float END us w)) u
     (snd (run_polling py_float END us w))
   = (inr (fst (run_polling py_float END us w)),
      snd (run_polling py_float END us w)) \/
   dispatch py_float (fst (run_polling py_float END us w)) u
     (snd (run_polling py_float END us w))
   = (inl AttributeError, snd (run_polling py_float END us w))) /\
  orders (snd (run_polling py_float END us w)) = orders w.
Proof.
  split; [|split; [apply dispatch_without_message|apply run_polling_orders]].
  intros Hmsg.
  pose proof (run_polling_steps_stored py_float us END w I) as Hinv.
  destruct (dispatch_steps_stored py_float _ u _ Hinv Hmsg) as (st' & H & _).
  now exists st'.
Qed.

Lemma dialogue_never_misses_a_key_witness :
  update_message (Text "1.5") <> None /\
  exists st',
    fst (dispatch float_of_literal
           (fst (run_polling float_of_literal END
                   [Text "1.5"; EditedText "x"; Command "Set"; Text "msft";
                    EditedText "9"; Text "2000"]
                   (aapl_world 1000 2.5)))
           (Text "1.5")
           (snd (run_polling float_of_literal END
                   [Text "1.5"; EditedText "x"; Command "Set"; Text "msft";
                    EditedText "9"; Text "2000"]
                   (aapl_world 1000 2.5)))) = inr st'.
Proof.
  assert (H : update_message (Text "1.5") <> None) by discriminate.
  exact (conj H
           (proj1 (dialogue_never_misses_a_key float_of_literal
                     [Text "1.5"; EditedText "x"; Command "Set"; Text "msft";
                      EditedText "9"; Text "2000"]
                     (aapl_world 1000 2.5) (Text "1.5")) H)).
Defined.

(** X15. Text that does not parse is asked for again, as often as it
    comes: any number of such texts in the second step leave the conversation
    in [ORDER_SIZE], and in the third step in [PROFIT_PCT], with one
    re-prompt per text and the store, the orders, the log and [user_data]
    untouched. *)
Theorem invalid_inputs_reprompt
        (py_float : string -> option float) (texts : list string) (w : World) :
  (forall t, In t texts -> py_float (strip t) = None) ->
  run_polling py_float ORDER_SIZE (map Text texts) w =
    (ORDER_SIZE,
     mkWorld (configs w) (orders w) (logged w) (user_data w)
             (replies w ++ repeat InvalidNumber (length texts))) /\
  run_polling py_float PROFIT_PCT (map Text texts) w =
    (PROFIT_PCT,
     mkWorld (configs w) (orders w) (logged w) (user_data w)
             (replies w ++ repeat InvalidPercentage (length texts))).
Proof.
  revert w. induction texts as [|t ts IH]; intros w Hnone.
  - destruct w. simpl. now rewrite !app_nil_r.
  - assert (Ht : py_float (strip t) = None) by (apply Hnone; now left).
    assert (Hts : forall t', In t' ts -> py_float (strip t') = None)
      by (intros t' Hin; apply Hnone; now right).
    simpl. unfold dispatch, update_message, order_size_received,
      profit_received. py_unfold. rewrite Ht. simpl.
    destruct (IH (mkWorld (configs w) (orders w) (logged w) (user_data w)
                          (replies w ++ [InvalidNumber])) Hts) as [-> _].
    destruct (IH (mkWorld (configs w) (orders w) (logged w) (user_data w)
                          (replies w ++ [InvalidPercentage])) Hts) as [_ ->].
    simpl. now rewrite <- !app_assoc.
Qed.

Lemma invalid_inputs_reprompt_witness :
  (forall t, In t ["abc"; "1,5"; ""]%string ->
             float_of_literal (strip t) = None) /\
  run_polling float_of_literal ORDER_SIZE
    (map Text ["abc"; "1,5"; ""]%string) (aapl_world 1000 2.5) =
    (ORDER_SIZE,
     mkWorld (configs (aapl_world 1000 2.5)) (orders (aapl_world 1000 2.5))
             (logged (aapl_world 1000 2.5)) (user_data (aapl_world 1000 2.5))
             (replies (aapl_world 1000 2.5)
              ++ repeat InvalidNumber (length ["abc"; "1,5"; ""]%string))).
Proof.
  assert (H : forall t, In t ["abc"; "1,5"; ""]%string ->
                        float_of_literal (strip t) = None)
    by (intros t [<-|[<-|[<-|[]]]]; vm_compute; reflexivity).
  exact (conj H (proj1 (invalid_inputs_reprompt float_of_literal
                          ["abc"; "1,5"; ""]%string (aapl_world 1000 2.5) H))).
Defined.

(** X16. Every key the dialogue writes is upper-cased: from the start of
    the bot on, an entry of the store that a run of updates changed or created
    is keyed by a text that [upper] leaves as it is, the form in which the
    route looks tickers up. *)
Theorem dialogue_keys_are_upper
        (py_float : string -> option float) (us : list Update) (w : World)
        (k : string) :
  configs (snd (run_polling py_float END us w)) !! k <> configs w !! k ->
  upper k = k.
Proof. exact (run_polling_keys_upper py_float us END w k I). Qed.

Lemma dialogue_keys_are_upper_witness :
  configs (snd (run_polling float_of_literal END
                  [Command "set"; Text "msft"; Text "2000"; Text "1.5"]
                  (aapl_world 1000 2.5))) !! "MSFT"%string
    <> configs (aapl_world 1000 2.5) !! "MSFT"%string /\
  upper "MSFT" = "MSFT"%string.
Proof.
  assert (H : configs (snd (run_polling float_of_literal END
                  [Command "set"; Text "msft"; Text "2000"; Text "1.5"]
                  (aapl_world 1000 2.5))) !! "MSFT"%string
              <> configs (aapl_world 1000 2.5) !! "MSFT"%string)
    by (vm_compute; discriminate).
  exact (conj H (dialogue_keys_are_upper float_of_literal _ _ _ H)).
Defined.

(** X17. Nothing is configured without [/set]: outside a conversation, a
    run of updates with no new [/set] message among them, in any spelling of
    its letters (but texts, [/cancel], [/start], other commands, edits),
    stays outside and leaves the store and [user_data] as they were. *)
Theorem nothing_without_set
        (py_float : string -> option float) (us : list Update) (w : World) :
  (forall name, In (Command name) us -> lower name <> "set"%string) ->
  fst (run_polling py_float END us w) = END /\
  configs (snd (run_polling py_float END us w)) = configs w /\
  user_data (snd (run_polling py_float END us w)) = user_data w.
Proof.
  revert w. induction us as [|u rest IH]; intros w Hno; simpl; [auto|].
  assert (Hrest : forall name, In (Command name) rest ->
                               lower name <> "set"%string)
    by (intros name Hin; apply Hno; now right).
  destruct (update_message u) as [m|] eqn:Hm;
    [|destruct (dispatch_without_message py_float END u w Hm) as [-> | ->];
      now apply IH].
  destruct u as [name|text|name|text|]; try discriminate Hm;
    unfold dispatch, update_message.
  - destruct (String.eqb (lower name) "start"); simpl.
    + destruct (IH (mkWorld (configs w) (orders w) (logged w) (user_data w)
                            (replies w ++ [Welcome])) Hrest) as (-> & -> & ->).
      auto.
    + destruct (String.eqb (lower name) "set") eqn:E; simpl.
      * apply String.eqb_eq in E. exfalso. apply (Hno name); [now left|exact E].
      * now apply IH.
  - simpl. now apply IH.
Qed.

Lemma nothing_without_set_witness :
  (forall name,
      In (Command name)
         [Text "msft"; Command "Cancel"; EditedCommand "set"; Text "2000";
          Text "1.5"] ->
      lower name <> "set"%string) /\
  fst (run_polling float_of_literal END
         [Text "msft"; Command "Cancel"; EditedCommand "set"; Text "2000";
          Text "1.5"]
         (aapl_world 1000 2.5)) = END /\
  configs (snd (run_polling float_of_literal END
                  [Text "msft"; Command "Cancel"; EditedCommand "set";
                   Text "2000"; Text "1.5"]
                  (aapl_world 1000 2.5))) = configs (aapl_world 1000 2.5) /\
  user_data (snd (run_polling float_of_literal END
                    [Text "msft"; Command "Cancel"; EditedCommand "set";
                     Text "2000"; Text "1.5"]
                    (aapl_world 1000 2.5))) = user_data (aapl_world 1000 2.5).
Proof.
  assert (H : forall name,
             In (Command name)
                [Text "msft"; Command "Cancel"; EditedCommand "set";
                 Text "2000"; Text "1.5"] ->
             lower name <> "set"%string).
  { intros name [E|[E|[E|[E|[E|[]]]]]]; try discriminate E.
    injection E as <-. vm_compute. discriminate. }
  exact (conj H (nothing_without_set float_of_literal _ (aapl_world 1000 2.5) H)).
Defined.

(** Any spelling of [/set] opens the conversation. *)
Example upper_case_set_opens_session :
  configs (snd (run_polling float_of_literal END
                  [Command "SET"; Text "msft"; Text "2000"; Text "1.5"]
                  (aapl_world 1000 2.5)))
    !! "MSFT"%string = Some (mkConfig 2000 1.5).
Proof. vm_compute; reflexivity. Qed.

(** ** The log against the orders *)

(** X18. The log tells the orders: a request that submits no order logs no
    "placed" record, and a request that submits one ends its log with exactly
    one such record, carrying the symbol, quantity and limit price of that
    order. *)
Theorem orders_and_log_agree
        (py_float : string -> option float) (ib : IB) (data : Payload)
        (w : World) :
  (orders (snd (webhook py_float ib data w)) = orders w /\
   exists new_log,
     logged (snd (webhook py_float ib data w)) = logged w ++ new_log /\
     forallb (fun r => negb (is_placed r)) new_log = true) \/
  (exists ticker qty price before,
      orders (snd (webhook py_float ib data w)) =
        orders w ++ [(ticker, mkLimitOrder BUY (PyInt qty) price)] /\
      logged (snd (webhook py_float ib data w)) =
        logged w ++ before ++ [PlacedBuy ticker qty price] /\
      forallb (fun r => negb (is_placed r)) before = true) \/
  (exists ticker qty price before,
      orders (snd (webhook py_float ib data w)) =
        orders w ++ [(ticker, mkLimitOrder SELL (PyFloat qty) price)] /\
      logged (snd (webhook py_float ib data w)) =
        logged w ++ before ++ [PlacedSell ticker qty price] /\
      forallb (fun r => negb (is_placed r)) before = true).
Proof.
  destruct (webhook_route py_float ib data w) as [_ ->].
  set (ticker := upper (default ""%string (p_ticker data))).
  set (act := upper (default ""%string (p_action data))).
  assert (Hquiet : forall nl,
             forallb (fun r => negb (is_placed r)) nl = true ->
             orders w = orders w /\
             exists new_log,
               logged w ++ [WebhookReceived act ticker] ++ nl
                 = logged w ++ new_log /\
               forallb (fun r => negb (is_placed r)) new_log = true).
  { intros nl Hnl. split; [reflexivity|].
    exists (WebhookReceived act ticker :: nl). split; [reflexivity|].
    simpl. exact Hnl. }
  unfold route. destruct (String.eqb act "BUY").
  - py_unfold.
    destruct (configs w !! ticker) as [cfg|]; simpl;
      [|left; rewrite <- app_assoc; now apply Hquiet].
    destruct (available_funds py_float (accountValues ib)) as [e|a]; simpl;
      [left; now apply (Hquiet [])|].
    destruct (a <? order_size cfg)%float; simpl;
      [left; rewrite <- !app_assoc; now apply Hquiet|].
    destruct (buy_quantity _ _) as [e|qty]; simpl;
      [left; rewrite <- !app_assoc; now apply Hquiet|].
    destruct (qty <=? 0); simpl;
      [left; rewrite <- !app_assoc; now apply Hquiet|].
    right. left.
    exists ticker, qty, (buy_price (reqMktData ib ticker)),
           [WebhookReceived act ticker; AvailableFunds a].
    rewrite <- !app_assoc. auto.
  - destruct (String.eqb act "SELL").
    + py_unfold.
      destruct (configs w !! ticker) as [cfg|]; simpl;
        [|left; rewrite <- app_assoc; now apply Hquiet].
      destruct (List.find _ _) as [p|]; simpl;
        [|left; rewrite <- app_assoc; now apply Hquiet].
      left. now apply (Hquiet []).
    + left. unfold logger. simpl. rewrite <- app_assoc. now apply Hquiet.
Qed.

(** ** The limit price of a BUY order *)

(** A float not above zero is a NaN, a zero, a negative finite value or
    [-oo]. *)
Lemma not_positive_shape (x : float) :
  (0 <? x)%float = false ->
  Prim2SF x = S754_nan \/
  (exists s, Prim2SF x = S754_zero s) \/
  (exists m e, Prim2SF x = S754_finite true m e) \/
  Prim2SF x = S754_infinity true.
Proof.
  rewrite FloatAxioms.ltb_spec. unfold SFltb.
  change (Prim2SF 0) with (S754_zero false).
  destruct (Prim2SF x) as [s|s| |s m e]; simpl; eauto;
    destruct s; simpl; try discriminate; eauto 6.
Qed.

(** With an order size above zero, a quantity above zero comes from a
    price above zero only: a zero price raises, a NaN price raises in
    [int()], and a negative price gives a quantity that is at most zero. *)
Lemma positive_quantity_positive_price (size price : float) (qty : Z) :
  (0 <? size)%float = true ->
  buy_quantity size price = inr qty -> 0 < qty ->
  (0 <? price)%float = true.
Proof.
  intros Hsize Hq Hpos.
  destruct (0 <? price)%float eqn:Hprice; [reflexivity|exfalso].
  unfold buy_quantity, truediv in Hq.
  destruct (price =? 0)%float eqn:Hz; [discriminate Hq|].
  assert (Hsign : match Prim2SF (size / price) with
                  | S754_finite false _ _ => False
                  | _ => True
                  end).
  { rewrite div_spec.
    destruct (positive_shape size Hsize) as [(mx & ex & ->)| ->],
             (not_positive_shape price Hprice)
               as [->|[[s Hs]|[(my & ey & ->)| ->]]];
      unfold SF64div, SFdiv; auto.
    - exfalso. rewrite FloatAxioms.eqb_spec, Hs in Hz.
      now destruct s.
    - destruct (SFdiv_core_binary prec emax (Z.pos mx) ex (Z.pos my) ey)
        as [[mz ez] lz]. simpl xorb.
      pose proof (binary_round_aux_keeps_sign true mz ez lz) as H.
      destruct (binary_round_aux prec emax true mz ez lz) as [| | |s' m' e'];
        auto. now subst s'.
    - exfalso. rewrite FloatAxioms.eqb_spec, Hs in Hz.
      now destruct s. }
  pose proof (int_of_float_nonpositive _ qty Hsign Hq). lia.
Qed.

(** X19. With a configured order size above zero, every BUY order the buy
    path submits has a quantity above zero and a limit price above zero: a
    quote giving a zero, negative or NaN price (the broker's -1 for a missing
    bid and ask, for one) never becomes an order. *)
Theorem buy_order_is_positive
        (py_float : string -> option float) (ib : IB) (ticker : string)
        (w : World) (cfg : Config) :
  configs w !! ticker = Some cfg ->
  (0 <? order_size cfg)%float = true ->
  orders (snd (handle_buy py_float ib ticker w)) = orders w \/
  exists qty,
    0 < qty /\ (0 <? buy_price (reqMktData ib ticker))%float = true /\
    orders (snd (handle_buy py_float ib ticker w)) =
      orders w ++ [(ticker, mkLimitOrder BUY (PyInt qty)
                              (buy_price (reqMktData ib ticker)))].
Proof.
  intros Hcfg Hsize.
  destruct (handle_buy_order_cases py_float ib ticker w)
    as [H|(cfg' & a & qty & Hcfg' & _ & _ & Hq & Hpos & _ & Ho)];
    [now left|].
  rewrite Hcfg in Hcfg'. injection Hcfg' as <-.
  right. exists qty. repeat split; auto.
  exact (positive_quantity_positive_price _ _ qty Hsize Hq Hpos).
Qed.

Lemma buy_order_is_positive_witness :
  configs (aapl_world 1000 2.5) !! "AAPL"%string = Some (mkConfig 1000 2.5) /\
  (0 <? order_size (mkConfig 1000 2.5))%float = true /\
  (orders (snd (handle_buy float_of_literal
                  (broker "5000" (mkTickerData (-1) (-1) (-1)) []) "AAPL"
                  (aapl_world 1000 2.5))) = orders (aapl_world 1000 2.5) \/
   exists qty,
     0 < qty /\
     (0 <? buy_price (reqMktData
                        (broker "5000" (mkTickerData (-1) (-1) (-1)) [])
                        "AAPL"))%float = true /\
     orders (snd (handle_buy float_of_literal
                    (broker "5000" (mkTickerData (-1) (-1) (-1)) []) "AAPL"
                    (aapl_world 1000 2.5))) =
       orders (aapl_world 1000 2.5)
       ++ [("AAPL"%string,
            mkLimitOrder BUY (PyInt qty)
              (buy_price (reqMktData
                            (broker "5000" (mkTickerData (-1) (-1) (-1)) [])
                            "AAPL")))]).
Proof.
  assert (H1 : configs (aapl_world 1000 2.5) !! "AAPL"%string
               = Some (mkConfig 1000 2.5)) by (vm_compute; reflexivity).
  assert (H2 : (0 <? order_size (mkConfig 1000 2.5))%float = true)
    by reflexivity.
  exact (conj H1 (conj H2
           (buy_order_is_positive float_of_literal
              (broker "5000" (mkTickerData (-1) (-1) (-1)) []) "AAPL"
              (aapl_world 1000 2.5) (mkConfig 1000 2.5) H1 H2))).
Defined.

(** The broker's marker for a missing bid and ask, -1, with no last trade:
    the price selected is -1, the quantity -1000, and nothing is ordered. *)
Example missing_quote_marker_buys_nothing :
  handle_buy float_of_literal
    (broker "5000" (mkTickerData nan (-1) (-1)) []) "AAPL"
    (aapl_world 1000 2.5)
  = (inr tt,
     mkWorld (configs (aapl_world 1000 2.5)) []
             [AvailableFunds 5000; ZeroQuantity "AAPL" (-1)] no_user_data []).
Proof. vm_compute; reflexivity. Qed.
